(** * Image forgery detector: a shallow embedding of [forensics.py]

    The development follows the source file top to bottom.  Python objects
    are a small universe of values ([pyval]); the functions of the source
    run in a monad that threads the file system, may raise, and records
    what the run did (prints and calls to the external libraries: PIL,
    exifread, ExifTool, OpenCV, matplotlib).  The
    external libraries themselves are a record of functions ([Libs]), so
    every statement about the program holds for each behaviour they can
    have.  The two float literals [0.9] and [1.1] of the resolution rule
    are IEEE-754 binary64 numbers, modelled exactly on integers. *)

From Stdlib Require Import ZArith List String Ascii Bool Lia.
From stdpp Require Import base option gmap strings list pretty.

Set Warnings "-register-all".
Open Scope Z_scope.

(** ** Binary64 arithmetic, as far as the program uses it

    A positive, finite, normal double is [mant * 2^expo] with
    [2^52 <= mant < 2^53].  The program multiplies positive integer
    constants by positive float literals and compares the products with
    integers, so signs, zeros, subnormals, infinities and NaN never
    arise and are not represented. *)
Module Float64.

Record t := mk { mant : Z; expo : Z }.

Definition digits (n : Z) : Z := Z.log2 n + 1.

(** Round the positive real [m * 2^e] to the nearest double, ties to even. *)
Definition round_nearest_even (m e : Z) : t :=
  let d := digits m in
  if d <=? 53 then mk (m * 2 ^ (53 - d)) (e - (53 - d))
  else
    let s := d - 53 in
    let q := Z.shiftr m s in
    let r := Z.land m (Z.ones s) in
    let half := 2 ^ (s - 1) in
    let q' := if (half <? r) || ((r =? half) && Z.odd q) then q + 1 else q in
    if q' =? 2 ^ 53 then mk (2 ^ 52) (e + s + 1) else mk q' (e + s).

(** The double nearest to the positive rational [n / d]: how Python reads a
    decimal literal such as [0.9] (n = 9, d = 10). *)
Definition of_ratio (n d : Z) : t :=
  let k0 := 52 - Z.log2 n + Z.log2 d in
  let scaled k := (n * 2 ^ Z.max k 0) / (d * 2 ^ Z.max (- k) 0) in
  let k := if scaled k0 <? 2 ^ 52 then k0 + 1 else k0 in
  let num := n * 2 ^ Z.max k 0 in
  let den := d * 2 ^ Z.max (- k) 0 in
  let q := num / den in
  let r := num mod den in
  let q' := if (den <? 2 * r) || ((2 * r =? den) && Z.odd q) then q + 1 else q in
  if q' =? 2 ^ 53 then mk (2 ^ 52) (1 - k) else mk q' (- k).

(** [float(n)] for a positive Python int. *)
Definition of_int (n : Z) : t := round_nearest_even n 0.

(** [a * b] on doubles: the exact product, rounded once. *)
Definition mul (a b : t) : t :=
  round_nearest_even (mant a * mant b) (expo a + expo b).

(** [n >= f] and [n <= f] for a Python int [n] and a double [f]: Python
    compares the two exactly, without converting [n] to a double. *)
Definition int_ge (n : Z) (f : t) : bool :=
  if 0 <=? expo f then mant f * 2 ^ expo f <=? n
  else mant f <=? n * 2 ^ (- expo f).

Definition int_le (n : Z) (f : t) : bool :=
  if 0 <=? expo f then n <=? mant f * 2 ^ expo f
  else n * 2 ^ (- expo f) <=? mant f.

(** [n * f] for a Python int [n] and a double [f]. *)
Definition int_mul (n : Z) (f : t) : t := mul (of_int n) f.

End Float64.

(** The literals [0.9] and [1.1]. *)
Definition lit_0_9 : Float64.t := Float64.of_ratio 9 10.
Definition lit_1_1 : Float64.t := Float64.of_ratio 11 10.

(** ** Python values *)

(** Plain data: what a metadata mapping, a tuple or a message can hold.
    [VOpaque] is an object of any other class (an exifread [IfdTag], a
    float, a rational), of which the program only ever takes the truth
    value. *)
Inductive pyval :=
| VNone
| VBool (b : bool)
| VInt (z : Z)
| VStr (s : string)
| VBytes (b : list Byte.byte)
| VTuple (l : list pyval)
| VDict (d : gmap string pyval)
| VOpaque (truth : bool) (repr : string).

(** A decoded [PIL.Image.Image]: its [size], its [info] mapping and the
    pixel buffer. *)
Record Image := mkImage {
  size : Z * Z;
  info : gmap string pyval;
  pixels : list Z
}.

(** A two-dimensional [numpy.ndarray] of [uint8]: shape and row-major
    buffer. *)
Record ndarray := mkArray {
  nrows : nat;
  ncols : nat;
  buf : list Z
}.

(** Whatever a function of the program can return. *)
Inductive pyobj :=
| Val (v : pyval)
| Img (im : Image)
| Arr (a : ndarray).

(** A raised exception; [exc_msg] is what [str(e)] gives. *)
Record pyexc := Exc { exc_type : string; exc_msg : string }.

Definition result (A : Type) : Type := pyexc + A.

(** [s.startswith(needle)] *)
Fixpoint starts_with (needle s : string) : bool :=
  match needle with
  | EmptyString => true
  | String a needle' =>
      match s with
      | EmptyString => false
      | String b s' => Ascii.eqb a b && starts_with needle' s'
      end
  end.

(** [needle in s] on strings: [needle] starts at some position of [s]. *)
Fixpoint is_substring (needle s : string) : bool :=
  starts_with needle s ||
  match s with
  | EmptyString => false
  | String _ s' => is_substring needle s'
  end.

(** [{"error": msg}] *)
Definition error_dict (msg : string) : pyobj :=
  Val (VDict {["error" := VStr msg]}).

(** [isinstance(x, dict) and 'error' in x] *)
Definition is_error_dict (x : pyobj) : bool :=
  match x with
  | Val (VDict d) => match d !! "error" with Some _ => true | None => false end
  | _ => false
  end.

(** The truth value of an object, as [if], [not], [and] and [or] take it. *)
Definition py_truth (v : pyval) : bool :=
  match v with
  | VNone => false
  | VBool b => b
  | VInt z => negb (z =? 0)
  | VStr s => negb (String.eqb s "")
  | VBytes b => match b with [] => false | _ :: _ => true end
  | VTuple l => match l with [] => false | _ :: _ => true end
  | VDict d => match map_to_list d with [] => false | _ :: _ => true end
  | VOpaque truth _ => truth
  end.

Definition obj_truth (x : pyobj) : result bool :=
  match x with
  | Val v => inr (py_truth v)
  | Img _ => inr true
  | Arr a =>
      match buf a with
      | [] => inr false
      | [z] => inr (negb (z =? 0))
      | _ => inl (Exc "ValueError"
               "The truth value of an array with more than one element is ambiguous. Use a.any() or a.all()")
      end
  end.

(** [needle in x] for a string [needle]: substring search on a string, key
    lookup on a dict, element search on a tuple. *)
Definition py_in (needle : string) (x : pyobj) : result bool :=
  match x with
  | Val (VStr s) => inr (is_substring needle s)
  | Val (VDict d) => inr (match d !! needle with Some _ => true | None => false end)
  | Val (VTuple l) =>
      inr (existsb (fun v => match v with VStr s => String.eqb s needle | _ => false end) l)
  | Val (VBytes _) =>
      inl (Exc "TypeError" "a bytes-like object is required, not 'str'")
  | Val _ => inl (Exc "TypeError" "argument is not iterable")
  | Img _ => inl (Exc "TypeError" "argument of type 'Image' is not iterable")
  | Arr _ => inr false
  end.

(** [x[key]] for a string [key]. *)
Definition py_getitem (x : pyobj) (key : string) : result pyval :=
  match x with
  | Val (VDict d) =>
      match d !! key with
      | Some v => inr v
      | None => inl (Exc "KeyError" key)
      end
  | _ => inl (Exc "TypeError" "indices must be integers or slices, not str")
  end.

(** [a + b] and [min(a, b)], on the operands the program can meet. *)
Definition py_add (a b : pyval) : result pyval :=
  match a, b with
  | VInt x, VInt y => inr (VInt (x + y))
  | VStr x, VStr y => inr (VStr (x +:+ y))
  | _, _ => inl (Exc "TypeError" "unsupported operand type(s) for +")
  end.

Definition py_min (a b : pyval) : result pyval :=
  match a, b with
  | VInt x, VInt y => inr (VInt (if y <? x then y else x))
  | _, _ => inl (Exc "TypeError" "'<' not supported between these instances")
  end.

Definition unpack_error (got : nat) : pyexc :=
  if (got <? 2)%nat
  then Exc "ValueError" ("not enough values to unpack (expected 2, got " +:+ pretty got +:+ ")")
  else Exc "ValueError" "too many values to unpack (expected 2)".

(** [a, b = x]: iterate [x] and bind exactly two items.  Iterating a dict
    yields its keys (the model enumerates them in the map's own order; only
    the number of keys matters to the program). *)
Definition unpack2 (x : pyobj) : result (pyval * pyval) :=
  match x with
  | Val (VTuple l) =>
      match l with
      | [a; b] => inr (a, b)
      | _ => inl (unpack_error (length l))
      end
  | Val (VDict d) =>
      match map_to_list d with
      | [(k1, _); (k2, _)] => inr (VStr k1, VStr k2)
      | kvs => inl (unpack_error (length kvs))
      end
  | _ => inl (Exc "TypeError" "cannot unpack non-iterable object")
  end.

(** ** Files, events and the monad of the program *)

(** A piece of an f-string. *)
Inductive fpart :=
| Lit (s : string)
| Arg (x : pyobj).

Inductive event :=
| Print (parts : list fpart)                 (* print(f"...") or print(x) *)
| PILOpen (path : string)                    (* Image.open(path) *)
| PILSave (path : string) (quality : Z)      (* img.save(path, 'JPEG', quality=...) *)
| PILDifference                              (* ImageChops.difference *)
| PILShow (im : Image)                       (* img.show() *)
| ExifRead (path : string)                   (* open(path, 'rb'); exifread.process_file *)
| ExifTool (path : string)                   (* subprocess.run(['exiftool', path]) *)
| CvImread (path : string)                   (* cv2.imread(path, 0) *)
| CvCanny (lo hi : Z)                        (* cv2.Canny(image, lo, hi) *)
| PltShow (title : string) (a : ndarray).    (* plt.imshow; plt.title; plt.show *)

(** The file system: the bytes stored under each path. *)
Abbreviation filesystem := (gmap string (list Byte.byte)).

(** What running a piece of the program from a file system gives: the value
    it returns or the exception it raises, the file system it leaves, and
    the events it produced, in order. *)
Record run (A : Type) := Run {
  value : result A;
  files_after : filesystem;
  trace : list event
}.
Arguments Run {A} _ _ _.
Arguments value {A} _.
Arguments files_after {A} _.
Arguments trace {A} _.

(** State, output and exception monad of the program. *)
Definition M (A : Type) : Type := filesystem -> run A.

Definition ret {A} (a : A) : M A := fun fs => Run (inr a) fs [].

Definition bind {A B} (m : M A) (k : A -> M B) : M B :=
  fun fs =>
    let r := m fs in
    match value r with
    | inr a =>
        let r' := k a (files_after r) in
        Run (value r') (files_after r') (trace r ++ trace r')
    | inl e => Run (inl e) (files_after r) (trace r)
    end.

Definition raise {A} (e : pyexc) : M A := fun fs => Run (inl e) fs [].

(** [try: body except Exception as e: handler(e)].  What the body did
    before it raised stays done. *)
Definition try_except {A} (body : M A) (handler : pyexc -> M A) : M A :=
  fun fs =>
    let r := body fs in
    match value r with
    | inr a => r
    | inl e =>
        let r' := handler e (files_after r) in
        Run (value r') (files_after r') (trace r ++ trace r')
    end.

Definition lift {A} (r : result A) : M A := fun fs => Run r fs [].

Definition emit (e : event) : M unit := fun fs => Run (inr tt) fs [e].

Definition read_file (path : string) : M (option (list Byte.byte)) :=
  fun fs => Run (inr (fs !! path)) fs [].

Declare Scope py_scope.
Delimit Scope py_scope with py.
Notation "x <- m ;; k" := (bind m (fun x => k))
  (at level 100, m at next level, right associativity) : py_scope.
Notation "m ;;; k" := (bind m (fun _ => k))
  (at level 100, right associativity) : py_scope.
Open Scope py_scope.

(** ** The external libraries

    Each function receives what the real one reads: the path and the bytes
    stored under it ([None] when there is no such file).  Every call may
    raise, except where the library documents a [None] result instead. *)

Record CompletedProcess := mkCompleted {
  returncode : Z;
  stdout : list Byte.byte;
  stderr : list Byte.byte
}.

(** What [img.save(path, 'JPEG', quality=q)] does: it either writes the
    encoded bytes, or raises and leaves under [path] whatever the library
    leaves there, given what was there before. *)
Inductive SaveOutcome :=
| Saved (content : list Byte.byte)
| SaveFailed (e : pyexc) (residue : option (list Byte.byte) -> option (list Byte.byte)).

Record Libs := mkLibs {
  pil_open : string -> option (list Byte.byte) -> result Image;
  pil_save_jpeg : Image -> Z -> SaveOutcome;
  pil_difference : Image -> Image -> result Image;
  exifread_process_file : string -> option (list Byte.byte) -> result (gmap string pyval);
  exiftool : string -> option (list Byte.byte) -> result CompletedProcess;
  utf8_decode : list Byte.byte -> result string;
  (* [cv2.imread(path, 0)]: an array, [None] for a file it cannot read, or
     a raised [cv2.error] *)
  cv2_imread_gray : string -> option (list Byte.byte) -> result (option ndarray);
  (* [plt.imshow(a, cmap='gray'); plt.title(title); plt.show()]: what the
     display does to the file system is the library's business *)
  plt_show : string -> ndarray -> filesystem -> result unit * filesystem;
  (* [img.show()]: PIL writes the image to a temporary file of its own and
     starts a viewer on it *)
  pil_show : Image -> filesystem -> result unit * filesystem
}.

(** ** The Canny edge detector *)

Module Canny.

(** Pixel [(i, j)] of the image, the border replicated outwards. *)
Definition clamp (n : nat) (i : Z) : nat :=
  Z.to_nat (Z.max 0 (Z.min i (Z.of_nat n - 1))).

Definition pixel (a : ndarray) (i j : Z) : Z :=
  nth (clamp (nrows a) i * ncols a + clamp (ncols a) j)%nat (buf a) 0.

(** Horizontal and vertical intensity gradients (3x3 Sobel operator). *)
Definition grad_x (a : ndarray) (i j : Z) : Z :=
  (pixel a (i - 1) (j + 1) + 2 * pixel a i (j + 1) + pixel a (i + 1) (j + 1))
  - (pixel a (i - 1) (j - 1) + 2 * pixel a i (j - 1) + pixel a (i + 1) (j - 1)).

Definition grad_y (a : ndarray) (i j : Z) : Z :=
  (pixel a (i + 1) (j - 1) + 2 * pixel a (i + 1) j + pixel a (i + 1) (j + 1))
  - (pixel a (i - 1) (j - 1) + 2 * pixel a (i - 1) j + pixel a (i - 1) (j + 1)).

Definition magnitude (a : ndarray) (i j : Z) : Z :=
  Z.abs (grad_x a i j) + Z.abs (grad_y a i j).

(** Row and column of the [k]-th cell of the row-major buffer. *)
Definition row_of (a : ndarray) (k : nat) : Z := Z.of_nat (k / ncols a).
Definition col_of (a : ndarray) (k : nat) : Z := Z.of_nat (k mod ncols a).

Definition cells (a : ndarray) : list nat := seq 0 (nrows a * ncols a).

(** A mask has one flag per cell; a cell outside the grid is not set. *)
Definition mask_at (a : ndarray) (m : list bool) (i j : Z) : bool :=
  (0 <=? i) && (i <? Z.of_nat (nrows a)) && (0 <=? j) && (j <? Z.of_nat (ncols a))
  && nth (Z.to_nat i * ncols a + Z.to_nat j)%nat m false.

Definition neighbour_set (a : ndarray) (m : list bool) (i j : Z) : bool :=
  existsb (fun d => mask_at a m (i + fst d) (j + snd d))
    [(-1, -1); (-1, 0); (-1, 1); (0, -1); (0, 1); (1, -1); (1, 0); (1, 1)].

(** Pixels above the high threshold. *)
Definition strong (a : ndarray) (hi : Z) : list bool :=
  map (fun k => hi <? magnitude a (row_of a k) (col_of a k)) (cells a).

(** One round of edge linking: a pixel above the low threshold joins the
    edges when one of its eight neighbours is an edge already. *)
Definition link (a : ndarray) (lo : Z) (m : list bool) : list bool :=
  map (fun k =>
         nth k m false
         || ((lo <? magnitude a (row_of a k) (col_of a k))
             && neighbour_set a m (row_of a k) (col_of a k)))
      (cells a).

Fixpoint link_rounds (n : nat) (a : ndarray) (lo : Z) (m : list bool) : list bool :=
  match n with
  | O => m
  | S n' => link_rounds n' a lo (link a lo m)
  end.

(** Hysteresis: link until nothing more can join (a chain of linked pixels
    has at most as many pixels as the grid has cells). *)
Definition hysteresis (a : ndarray) (lo hi : Z) : list bool :=
  link_rounds (nrows a * ncols a) a lo (strong a hi).

Definition edge_value (b : bool) : Z := if b then 255 else 0.

End Canny.

(** Modelled from the spec: [cv2.Canny], the OpenCV function that
    [detect_clone_patterns] calls, is not part of the repository.  The model
    is the spec's section 4.4: a pixel whose gradient magnitude is above the
    high threshold is an edge, a pixel above the low threshold is one when
    it is connected to a strong edge, and the output is a grid of the
    source's shape with a binary edge / no-edge value per cell (255 / 0 in
    a [uint8] array).  The gradient is the 3x3 Sobel operator with the sum
    of absolute values as magnitude; the spec describes no thinning step
    and the model has none. *)
Definition cv2_Canny (image : ndarray) (threshold1 threshold2 : Z) : ndarray :=
  mkArray (nrows image) (ncols image)
    (map Canny.edge_value (Canny.hysteresis image threshold1 threshold2)).

(** ** The program *)

Section Forensics.

Variable lib : Libs.

(** [Image.open(path)] *)
Definition Image_open (path : string) : M Image :=
  emit (PILOpen path) ;;;
  content <- read_file path ;;
  lift (pil_open lib path content).

(** [img.save(path, 'JPEG', quality=quality)] *)
Definition Image_save (img : Image) (path : string) (quality : Z) : M unit :=
  fun fs =>
    match pil_save_jpeg lib img quality with
    | Saved content => Run (inr tt) (<[path := content]> fs) [PILSave path quality]
    | SaveFailed e residue =>
        Run (inl e) (partial_alter residue path fs) [PILSave path quality]
    end.

(** [ImageChops.difference(a, b)] *)
Definition ImageChops_difference (a b : Image) : M Image :=
  emit PILDifference ;;;
  lift (pil_difference lib a b).

(** Access to an attribute or method of an [Image] ([img.size], [img.info],
    [img.save]) on an object that may be of another class. *)
Definition as_image (x : pyobj) (attr : string) : M Image :=
  match x with
  | Img im => ret im
  | _ => raise (Exc "AttributeError" ("object has no attribute '" +:+ attr +:+ "'"))
  end.

Definition open_image (image_path : string) : M pyobj :=
  try_except
    (img <- Image_open image_path ;;
     ret (Img img))
    (fun e => ret (error_dict ("Failed to open image: " +:+ exc_msg e))).

Definition extract_basic_metadata (image_path : string) : M pyobj :=
  img <- open_image image_path ;;
  if is_error_dict img then ret img
  else
    im <- as_image img "info" ;;
    ret (Val (VDict (info im))).

Definition extract_exif_metadata (image_path : string) : M pyobj :=
  try_except
    (emit (ExifRead image_path) ;;;
     f <- read_file image_path ;;
     tags <- lift (exifread_process_file lib image_path f) ;;
     ret (Val (VDict tags)))
    (fun e => ret (error_dict ("Failed to read EXIF metadata: " +:+ exc_msg e))).

Definition extract_exiftool_metadata (image_path : string) : M pyobj :=
  try_except
    (emit (ExifTool image_path) ;;;
     f <- read_file image_path ;;
     result <- lift (exiftool lib image_path f) ;;
     if negb (returncode result =? 0) then
       err <- lift (utf8_decode lib (stderr result)) ;;
       ret (error_dict err)
     else
       out <- lift (utf8_decode lib (stdout result)) ;;
       ret (Val (VStr out)))
    (fun e => ret (error_dict ("Failed to run ExifTool: " +:+ exc_msg e))).

Definition detect_clone_patterns (image_path : string) : M pyobj :=
  emit (CvImread image_path) ;;;
  f <- read_file image_path ;;
  image <- lift (cv2_imread_gray lib image_path f) ;;
  match image with
  | None => ret (error_dict "Failed to read the image for clone detection.")
  | Some image =>
      emit (CvCanny 100 200) ;;;
      ret (Arr (cv2_Canny image 100 200))
  end.

Definition ela_path : string := "ela_image.jpg".

Definition perform_ela_analysis (image_path : string) (quality : Z) : M pyobj :=
  original <- open_image image_path ;;
  if is_error_dict original then ret original
  else
    try_except
      (im <- as_image original "save" ;;
       Image_save im ela_path quality ;;;
       ela_image <- Image_open ela_path ;;
       diff <- ImageChops_difference im ela_image ;;
       ret (Img diff))
      (fun e => ret (error_dict ("Failed to perform ELA: " +:+ exc_msg e))).

Definition common_resolutions : list (Z * Z) :=
  [(1920, 1080); (1366, 768); (1280, 720); (1440, 900);
   (1680, 1050); (1280, 800); (2560, 1440); (3840, 2160)].

(** The condition of the [if] in the loop over [common_resolutions]. *)
Definition resolution_matches (width height : Z) (res : Z * Z) : bool :=
  (Float64.int_ge width (Float64.int_mul (fst res) lit_0_9)
   && Float64.int_le width (Float64.int_mul (fst res) lit_1_1))
  && (Float64.int_ge height (Float64.int_mul (snd res) lit_0_9)
      && Float64.int_le height (Float64.int_mul (snd res) lit_1_1)).

Definition verdict (label : string) (score : Z) : pyobj :=
  Val (VTuple [VStr label; VInt score]).

(** The [for] loop: [Some] is the [return] inside it, [None] falling
    through its end. *)
Fixpoint scan_resolutions (rs : list (Z * Z)) (width height : Z) : option pyobj :=
  match rs with
  | [] => None
  | res :: rs' =>
      if resolution_matches width height res
      then Some (verdict "Possible Screenshot (Common Screen Resolution)" 35)
      else scan_resolutions rs' width height
  end.

Definition check_image_for_screenshot (image_path : string) : M pyobj :=
  img <- open_image image_path ;;
  if is_error_dict img then ret img
  else
    im <- as_image img "size" ;;
    let width := fst (size im) in
    let height := snd (size im) in
    match scan_resolutions common_resolutions width height with
    | Some r => ret r
    | None =>
        exif_metadata <- extract_exif_metadata image_path ;;
        present <- lift (obj_truth exif_metadata) ;;
        minimal <- (if negb present then ret true
                    else
                      has_image <- lift (py_in "Image" exif_metadata) ;;
                      ret (negb has_image)) ;;
        if minimal : bool
        then ret (verdict "Possible Screenshot (Missing or Minimal EXIF Data)" 50)
        else ret (verdict "Original Image (Not a Screenshot)" 0)
    end.

(** [if 'Software' in basic_metadata and basic_metadata['Software']:
       forgery_score += 40] *)
Definition software_check (basic_metadata : pyobj) (forgery_score : Z) : M Z :=
  present <- lift (py_in "Software" basic_metadata) ;;
  cond <- (if present : bool
           then
             v <- lift (py_getitem basic_metadata "Software") ;;
             ret (py_truth v)
           else ret false) ;;
  if cond : bool then ret (forgery_score + 40) else ret forgery_score.

(** [if 'Inkscape' in exiftool_metadata or 'Photoshop' in exiftool_metadata:
       forgery_score += 40] *)
Definition signature_check (exiftool_metadata : pyobj) (forgery_score : Z) : M Z :=
  inkscape <- lift (py_in "Inkscape" exiftool_metadata) ;;
  cond <- (if inkscape : bool then ret true
           else lift (py_in "Photoshop" exiftool_metadata)) ;;
  if cond : bool then ret (forgery_score + 40) else ret forgery_score.

Definition check_image_for_forgery (image_path : string) : M pyobj :=
  let forgery_score := 0 in
  basic_metadata <- extract_basic_metadata image_path ;;
  exif_metadata <- extract_exif_metadata image_path ;;
  exiftool_metadata <- extract_exiftool_metadata image_path ;;
  forgery_score <- software_check basic_metadata forgery_score ;;
  forgery_score <- signature_check exiftool_metadata forgery_score ;;
  ret (Val (VInt forgery_score)).

Definition print (parts : list fpart) : M unit := emit (Print parts).

(** The quality that [perform_ela_analysis] takes by default. *)
Definition default_quality : Z := 90.

(** [plt.imshow(a, cmap='gray'); plt.title(title); plt.show()] *)
Definition pyplot_show (title : string) (a : ndarray) : M unit :=
  fun fs =>
    Run (fst (plt_show lib title a fs)) (snd (plt_show lib title a fs))
        [PltShow title a].

(** [img.show()] *)
Definition Image_show (img : Image) : M unit :=
  fun fs => Run (fst (pil_show lib img fs)) (snd (pil_show lib img fs)) [PILShow img].

Definition analyze_image (image_path : string) : M pyobj :=
  print [Lit "Analyzing image: "; Arg (Val (VStr image_path))] ;;;
  r <- check_image_for_screenshot image_path ;;
  unpacked <- lift (unpack2 r) ;;
  let screenshot_result := fst unpacked in
  let screenshot_score := snd unpacked in
  print [Lit "Screenshot check result: "; Arg (Val screenshot_result);
         Lit ", Score: "; Arg (Val screenshot_score); Lit "%"] ;;;
  f <- check_image_for_forgery image_path ;;
  print [Lit "Forgery check result: Forgery Score: "; Arg f; Lit "%"] ;;;
  forgery_score <- match f with
                   | Val v => ret v
                   | _ => raise (Exc "TypeError" "unsupported operand type(s) for +")
                   end ;;
  total_forgery_score <- lift (py_add forgery_score screenshot_score) ;;
  total_forgery_score <- lift (py_min total_forgery_score (VInt 100)) ;;
  print [Lit "Total Forgery Probability: "; Arg (Val total_forgery_score); Lit "%"] ;;;
  clone_edges <- detect_clone_patterns image_path ;;
  match clone_edges with
  | Arr a => pyplot_show "Clone Detection (Edges)" a
  | _ => print [Arg clone_edges]
  end ;;;
  ela_result <- perform_ela_analysis image_path default_quality ;;
  match ela_result with
  | Img im => Image_show im
  | _ => print [Arg ela_result]
  end ;;;
  ret (Val VNone).

(** The last part of [analyze_image] on its own: the two pixel transforms
    and the display of their results. *)
Definition pixel_stage (image_path : string) : M pyobj :=
  clone_edges <- detect_clone_patterns image_path ;;
  match clone_edges with
  | Arr a => pyplot_show "Clone Detection (Edges)" a
  | _ => print [Arg clone_edges]
  end ;;;
  ela_result <- perform_ela_analysis image_path default_quality ;;
  match ela_result with
  | Img im => Image_show im
  | _ => print [Arg ela_result]
  end ;;;
  ret (Val VNone).

End Forensics.

(** ** Vocabulary of the specification *)

(** A resolution is within plus or minus ten percent of a reference pair:
    each dimension lies between 0.9 and 1.1 times the reference's
    corresponding dimension, in exact arithmetic. *)
Definition within_tolerance (width height : Z) (res : Z * Z) : Prop :=
  (9 * fst res <= 10 * width <= 11 * fst res)
  /\ (9 * snd res <= 10 * height <= 11 * snd res).

(** [s] contains [needle] as a substring. *)
Definition contains (s needle : string) : Prop :=
  exists before after : string, s = before +:+ needle +:+ after.

(** The mapping has a non-empty [Software] entry. *)
Definition has_software (basic_metadata : pyobj) : Prop :=
  exists d v, basic_metadata = Val (VDict d)
              /\ d !! "Software" = Some v /\ py_truth v = true.

(** The tool output is text that names Inkscape or Photoshop. *)
Definition names_editor (exiftool_metadata : pyobj) : Prop :=
  exists s, exiftool_metadata = Val (VStr s)
            /\ (contains s "Inkscape" \/ contains s "Photoshop").

(** A failure result of an extraction: the one-entry mapping
    [{"error": msg}]. *)
Definition is_failure (x : pyobj) : Prop := exists msg, x = error_dict msg.

(** The totals a run printed, read back from its trace. *)
Definition total_of (e : event) : option pyval :=
  match e with
  | Print [Lit s; Arg (Val v); Lit u] =>
      if String.eqb s "Total Forgery Probability: " && String.eqb u "%"
      then Some v else None
  | _ => None
  end.

Definition reported_totals (t : list event) : list pyval := omap total_of t.

Definition is_print (e : event) : bool :=
  match e with Print _ => true | _ => false end.

(** A computation that prints nothing. *)
Definition silent {A} (m : M A) : Prop :=
  forall fs, forallb (fun e => negb (is_print e)) (trace (m fs)) = true.

(** A computation that leaves the file system as it found it. *)
Definition read_only {A} (m : M A) : Prop :=
  forall fs, files_after (m fs) = fs.

(** A computation that returns, whatever the files and libraries do. *)
Definition total {A} (m : M A) : Prop :=
  forall fs, exists a, value (m fs) = inr a.

(** Every event of the computation satisfies [P]. *)
Definition emits {A} (P : event -> Prop) (m : M A) : Prop :=
  forall fs, Forall P (trace (m fs)).

(** The computation leaves what is stored under [path] as it found it. *)
Definition keeps {A} (path : string) (m : M A) : Prop :=
  forall fs, files_after (m fs) !! path = fs !! path.

(** ** A library with fixed answers, for concrete runs *)

(** The temporary file that [img.show()] writes in the concrete runs. *)
Definition show_temp_path : string := "/tmp/tmpq7x2k3vy.PNG".

Definition fixed_lib (img : result Image)
    (exif : result (gmap string pyval))
    (tool : result CompletedProcess)
    (gray : option ndarray)
    (save : SaveOutcome) : Libs :=
  mkLibs (fun _ _ => img)
         (fun _ _ => save)
         (fun a _ => inr a)
         (fun _ _ => exif)
         (fun _ _ => tool)
         (fun b => inr (string_of_list_byte b))
         (fun _ _ => inr gray)
         (fun _ _ fs => (inr tt, fs))
         (fun _ fs => (inr tt, <[show_temp_path := [Byte.x89; Byte.x50; Byte.x4e; Byte.x47]]> fs)).

Definition photo (width height : Z) (info : gmap string pyval) : Image :=
  mkImage (width, height) info [].

(** A camera photograph with EXIF tags of the [Image] group. *)
Definition camera_tags : gmap string pyval :=
  <["Image Make" := VOpaque true "Canon"]>
    (<["Image Model" := VOpaque true "Canon EOS 80D"]>
       (<["EXIF ExposureTime" := VOpaque true "1/250"]> ∅)).

Definition tool_ok (out : string) : result CompletedProcess :=
  inr (mkCompleted 0 (list_byte_of_string out) []).

Definition tool_failed (err : string) : result CompletedProcess :=
  inr (mkCompleted 1 [] (list_byte_of_string err)).

Definition camera_lib : Libs :=
  fixed_lib (inr (photo 4000 3000 ∅)) (inr camera_tags)
            (tool_ok "File Type : JPEG") None (Saved []).

(** The file of a camera photograph. *)
Definition camera_files : gmap string (list Byte.byte) :=
  {["IMG_0001.jpg" := [Byte.xff; Byte.xd8; Byte.xff; Byte.xe1]]}.

Definition camera_lib_1080p : Libs :=
  fixed_lib (inr (photo 1920 1080 ∅)) (inr camera_tags)
            (tool_ok "File Type : PNG") None (Saved []).

Definition no_exif_lib : Libs :=
  fixed_lib (inr (photo 4000 3000 ∅))
            (inl (Exc "OSError" "File format not recognized."))
            (tool_ok "File Type : PNG") None (Saved []).

(** ExifTool fails on the file, and its complaint names an editor. *)
Definition tool_error_lib : Libs :=
  fixed_lib (inr (photo 4000 3000 ∅)) (inr camera_tags)
            (tool_failed "Error: Photoshop IRB is truncated") None (Saved []).

(** Two source images, and a library that decodes and re-encodes them. *)
Definition ela_files : gmap string (list Byte.byte) :=
  <["a.png" := [Byte.x89; Byte.x50]]> {["b.png" := [Byte.x89; Byte.x50]]}.

Definition ela_lib : Libs :=
  fixed_lib (inr (photo 4000 3000 ∅)) (inr camera_tags)
            (tool_ok "File Type : PNG") None (Saved [Byte.xff; Byte.xd8]).

(** A 3 by 3 grayscale image, uniformly of intensity [c]. *)
Definition uniform_3x3 (c : Z) : ndarray := mkArray 3 3 (repeat c 9).

Definition gray_lib (image : ndarray) : Libs :=
  fixed_lib (inr (photo 3 3 ∅)) (inr ∅) (tool_ok "") (Some image) (Saved []).

(** A 3 by 4 grayscale image with a vertical step from black to white. *)
Definition step_3x4 : ndarray :=
  mkArray 3 4 [0; 0; 255; 255;
               0; 0; 255; 255;
               0; 0; 255; 255].

(** A full-HD image saved by an editor, which the tool output names too. *)
Definition edited_lib : Libs :=
  fixed_lib (inr (photo 1920 1080 {["Software" := VStr "Adobe Photoshop 2023"]}))
            (inr ∅)
            (tool_ok "Software : Adobe Photoshop 2023")
            None (Saved []).

(** No file decodes. *)
Definition corrupt_lib : Libs :=
  fixed_lib (inl (Exc "UnidentifiedImageError" "cannot identify image file"))
            (inr ∅) (tool_failed "Error: File format error") None (Saved []).

(** The same libraries, with another EXIF reader. *)
Definition with_exif (lib : Libs)
    (exif : string -> option (list Byte.byte) -> result (gmap string pyval)) : Libs :=
  mkLibs (pil_open lib) (pil_save_jpeg lib) (pil_difference lib) exif
         (exiftool lib) (utf8_decode lib) (cv2_imread_gray lib)
         (plt_show lib) (pil_show lib).


(** The same libraries, with other pixel transforms. *)
Definition with_transforms (lib : Libs)
    (gray : string -> option (list Byte.byte) -> result (option ndarray))
    (save : Image -> Z -> SaveOutcome)
    (difference : Image -> Image -> result Image) : Libs :=
  mkLibs (pil_open lib) save difference (exifread_process_file lib)
         (exiftool lib) (utf8_decode lib) gray (plt_show lib) (pil_show lib).

(** OpenCV refuses the image that PIL decodes. *)
Definition oversized_lib : Libs :=
  mkLibs (fun _ _ => inr (photo 1048577 1 ∅))
         (fun _ _ => Saved [])
         (fun a _ => inr a)
         (fun _ _ => inr ∅)
         (fun _ _ => tool_ok "File Type : BMP")
         (fun b => inr (string_of_list_byte b))
         (fun _ _ => inl (Exc "cv2.error" "OpenCV: image is too large"))
         (fun _ _ fs => (inr tt, fs))
         (fun _ fs => (inr tt, fs)).

(** * Properties *)

(** ** Binary64 thresholds of the resolution rule *)

Lemma int_ge_scaled n m e :
  e < 0 -> Float64.int_ge n (Float64.mk m e) = (m <=? n * 2 ^ (- e)).
Proof.
  intros He. unfold Float64.int_ge. cbn [Float64.expo Float64.mant].
  destruct (Z.leb_spec 0 e); [lia | reflexivity].
Qed.

Lemma int_le_scaled n m e :
  e < 0 -> Float64.int_le n (Float64.mk m e) = (n * 2 ^ (- e) <=? m).
Proof.
  intros He. unfold Float64.int_le. cbn [Float64.expo Float64.mant].
  destruct (Z.leb_spec 0 e); [lia | reflexivity].
Qed.

(** The literals are the doubles that Python reads. *)
Lemma literals_binary64 :
  lit_0_9 = Float64.mk 8106479329266893 (-53)
  /\ lit_1_1 = Float64.mk 4953959590107546 (-52).
Proof. split; vm_compute; reflexivity. Qed.

(** Evaluate each product [n * 0.9], [n * 1.1] to its double and turn the
    comparisons with it into integer inequalities. *)
Ltac eval_thresholds :=
  repeat match goal with
  | |- context [Float64.int_mul ?n ?f] =>
      let v := eval vm_compute in (Float64.int_mul n f) in
      change (Float64.int_mul n f) with v
  end;
  rewrite ?int_ge_scaled, ?int_le_scaled by reflexivity;
  repeat match goal with
  | |- context [2 ^ ?k] =>
      let v := eval vm_compute in (2 ^ k) in
      change (2 ^ k) with v
  end.

(** On integer dimensions the float comparisons of the source decide
    exactly the ten percent tolerance, for each reference resolution. *)
Lemma resolution_matches_spec width height res :
  In res common_resolutions ->
  resolution_matches width height res = true <-> within_tolerance width height res.
Proof.
  intros Hin. unfold common_resolutions in Hin. simpl in Hin.
  unfold resolution_matches, within_tolerance.
  repeat destruct Hin as [<- | Hin]; try contradiction;
    cbn [fst snd]; eval_thresholds;
    rewrite !andb_true_iff, !Z.leb_le; lia.
Qed.

Lemma scan_resolutions_none rs width height :
  (forall res, In res rs -> resolution_matches width height res = false) ->
  scan_resolutions rs width height = None.
Proof.
  induction rs as [| res rs IH]; intros Hno; simpl.
  - reflexivity.
  - rewrite (Hno res) by (left; reflexivity).
    apply IH. intros r Hr. apply Hno. right. exact Hr.
Qed.

Lemma scan_resolutions_some rs width height res :
  In res rs -> resolution_matches width height res = true ->
  scan_resolutions rs width height
  = Some (verdict "Possible Screenshot (Common Screen Resolution)" 35).
Proof.
  induction rs as [| r rs IH]; intros Hin Hm; simpl.
  - destruct Hin.
  - destruct (resolution_matches width height r) eqn:Hr; [reflexivity |].
    destruct Hin as [-> | Hin]; [congruence | auto].
Qed.

Lemma no_reference_within_tolerance width height :
  (forall res, In res common_resolutions -> ~ within_tolerance width height res) ->
  scan_resolutions common_resolutions width height = None.
Proof.
  intros Hno. apply scan_resolutions_none. intros res Hin.
  destruct (resolution_matches width height res) eqn:Hm; [| reflexivity].
  exfalso. apply (Hno res Hin). apply resolution_matches_spec; assumption.
Qed.

(** ** Strings *)

Lemma starts_with_spec needle s :
  starts_with needle s = true <-> exists after, s = needle +:+ after.
Proof.
  revert s. induction needle as [| c needle IH]; intros s; simpl.
  - split; [intros _; exists s; reflexivity | intros _; reflexivity].
  - destruct s as [| c' s].
    + split; [discriminate | intros [after H]; discriminate].
    + rewrite andb_true_iff, IH. split.
      * intros [Hc [after H]]. apply Ascii.eqb_eq in Hc. subst.
        exists after. reflexivity.
      * intros [after H]. inversion H; subst. split.
        -- apply Ascii.eqb_refl.
        -- exists after. reflexivity.
Qed.

Lemma is_substring_spec needle s :
  is_substring needle s = true <-> contains s needle.
Proof.
  unfold contains. induction s as [| c s IH].
  - simpl. rewrite orb_false_r, starts_with_spec. split.
    + intros [after H]. exists EmptyString, after. exact H.
    + intros [before [after H]]. destruct before; simpl in H.
      * exists after. exact H.
      * discriminate.
  - simpl. rewrite orb_true_iff, IH, starts_with_spec. split.
    + intros [[after H] | [before [after H]]].
      * exists EmptyString, after. exact H.
      * exists (String c before), after. simpl. now rewrite H.
    + intros [before [after H]]. destruct before as [| c' before]; simpl in H.
      * left. exists after. exact H.
      * right. exists before, after. now inversion H.
Qed.

Lemma py_truth_str s : py_truth (VStr s) = true <-> s <> EmptyString.
Proof.
  simpl. rewrite negb_true_iff. destruct (String.eqb_spec s ""); split;
    try congruence; intros H; now elim H.
Qed.

(** ** The monad: what composition preserves *)

Lemma bind_run {A B} (m : M A) (k : A -> M B) fs a fs' t :
  m fs = Run (inr a) fs' t ->
  bind m k fs = Run (value (k a fs')) (files_after (k a fs')) (t ++ trace (k a fs')).
Proof. intros H. unfold bind. rewrite H. reflexivity. Qed.

Lemma bind_raise {A B} (m : M A) (k : A -> M B) fs e fs' t :
  m fs = Run (inl e) fs' t ->
  bind m k fs = Run (inl e) fs' t.
Proof. intros H. unfold bind. rewrite H. reflexivity. Qed.

Lemma run_eta {A} (r : run A) : r = Run (value r) (files_after r) (trace r).
Proof. destruct r; reflexivity. Qed.

Create HintDb forensics.

Lemma silent_ret {A} (a : A) : silent (ret a).
Proof. intros fs; reflexivity. Qed.

Lemma silent_raise {A} e : silent (@raise A e).
Proof. intros fs; reflexivity. Qed.

Lemma silent_lift {A} (r : result A) : silent (lift r).
Proof. intros fs; reflexivity. Qed.

Lemma silent_read_file path : silent (read_file path).
Proof. intros fs; reflexivity. Qed.

Lemma silent_emit e : is_print e = false -> silent (emit e).
Proof. intros H fs. simpl. now rewrite H. Qed.

Lemma silent_bind {A B} (m : M A) (k : A -> M B) :
  silent m -> (forall a, silent (k a)) -> silent (bind m k).
Proof.
  intros Hm Hk fs. unfold bind. specialize (Hm fs).
  destruct (value (m fs)) as [e | a]; simpl; [exact Hm |].
  rewrite forallb_app, Hm. apply Hk.
Qed.

Lemma silent_try {A} (body : M A) handler :
  silent body -> (forall e, silent (handler e)) -> silent (try_except body handler).
Proof.
  intros Hb Hh fs. unfold try_except. specialize (Hb fs).
  destruct (value (body fs)) as [e | a]; simpl; [| exact Hb].
  rewrite forallb_app, Hb. apply Hh.
Qed.

Lemma read_only_ret {A} (a : A) : read_only (ret a).
Proof. intros fs; reflexivity. Qed.

Lemma read_only_raise {A} e : read_only (@raise A e).
Proof. intros fs; reflexivity. Qed.

Lemma read_only_lift {A} (r : result A) : read_only (lift r).
Proof. intros fs; reflexivity. Qed.

Lemma read_only_read_file path : read_only (read_file path).
Proof. intros fs; reflexivity. Qed.

Lemma read_only_emit e : read_only (emit e).
Proof. intros fs; reflexivity. Qed.

Lemma read_only_bind {A B} (m : M A) (k : A -> M B) :
  read_only m -> (forall a, read_only (k a)) -> read_only (bind m k).
Proof.
  intros Hm Hk fs. unfold bind. specialize (Hm fs).
  destruct (value (m fs)) as [e | a]; simpl; [exact Hm |].
  rewrite Hk. exact Hm.
Qed.

Lemma read_only_try {A} (body : M A) handler :
  read_only body -> (forall e, read_only (handler e)) ->
  read_only (try_except body handler).
Proof.
  intros Hb Hh fs. unfold try_except. specialize (Hb fs).
  destruct (value (body fs)) as [e | a]; simpl; [| exact Hb].
  rewrite Hh. exact Hb.
Qed.

Lemma total_ret {A} (a : A) : total (ret a).
Proof. intros fs; exists a; reflexivity. Qed.

Lemma total_emit e : total (emit e).
Proof. intros fs; exists tt; reflexivity. Qed.

Lemma total_read_file path : total (read_file path).
Proof. intros fs; eexists; reflexivity. Qed.

Lemma total_bind {A B} (m : M A) (k : A -> M B) :
  total m -> (forall a, total (k a)) -> total (bind m k).
Proof.
  intros Hm Hk fs. unfold bind. destruct (Hm fs) as [a Ha]. rewrite Ha.
  destruct (Hk a (files_after (m fs))) as [b Hb]. exists b. exact Hb.
Qed.

(** A [try] whose handler returns always returns, whatever its body does. *)
Lemma total_try {A} (body : M A) handler :
  (forall e, total (handler e)) -> total (try_except body handler).
Proof.
  intros Hh fs. unfold try_except.
  destruct (value (body fs)) as [e | a] eqn:Hv.
  - destruct (Hh e (files_after (body fs))) as [b Hb]. exists b. exact Hb.
  - exists a. exact Hv.
Qed.

#[export] Hint Resolve silent_ret silent_raise silent_lift silent_read_file
  silent_bind silent_try read_only_ret read_only_raise read_only_lift
  read_only_read_file read_only_emit read_only_bind read_only_try
  total_ret total_emit total_read_file total_bind total_try : forensics.

(** Take a computation apart along its binds, branches and handlers. *)
Ltac shape :=
  repeat first
    [ progress (intros)
    | apply silent_emit; reflexivity
    | solve [auto 2 with forensics]
    | apply silent_bind | apply read_only_bind | apply total_bind
    | apply silent_try | apply read_only_try | apply total_try
    | match goal with
      | |- context [if ?b then _ else _] => destruct b
      | |- context [match ?x with _ => _ end] => destruct x
      end ].

(** ** The helpers of the Metadata Gateway *)

Section Gateway.

Variable lib : Libs.

Lemma is_error_dict_error_dict msg : is_error_dict (error_dict msg) = true.
Proof. unfold is_error_dict, error_dict. now rewrite lookup_singleton_eq. Qed.

Lemma open_image_run p fs :
  open_image lib p fs =
  Run (inr match pil_open lib p (fs !! p) with
           | inr im => Img im
           | inl e => error_dict ("Failed to open image: " +:+ exc_msg e)
           end) fs [PILOpen p].
Proof.
  unfold open_image, try_except, Image_open, bind, emit, read_file, lift, ret.
  simpl. destruct (pil_open lib p (fs !! p)); reflexivity.
Qed.

Lemma extract_basic_metadata_run p fs :
  extract_basic_metadata lib p fs =
  Run (inr match pil_open lib p (fs !! p) with
           | inr im => Val (VDict (info im))
           | inl e => error_dict ("Failed to open image: " +:+ exc_msg e)
           end) fs [PILOpen p].
Proof.
  unfold extract_basic_metadata.
  rewrite (bind_run _ _ _ _ _ _ (open_image_run p fs)).
  destruct (pil_open lib p (fs !! p)) as [e | im].
  - rewrite is_error_dict_error_dict. reflexivity.
  - reflexivity.
Qed.

Lemma extract_exif_metadata_run p fs :
  extract_exif_metadata lib p fs =
  Run (inr match exifread_process_file lib p (fs !! p) with
           | inr tags => Val (VDict tags)
           | inl e => error_dict ("Failed to read EXIF metadata: " +:+ exc_msg e)
           end) fs [ExifRead p].
Proof.
  unfold extract_exif_metadata, try_except, bind, emit, read_file, lift, ret.
  simpl. destruct (exifread_process_file lib p (fs !! p)); reflexivity.
Qed.

(** The tool extraction gives the decoded output, or a failure mapping. *)
Lemma extract_exiftool_metadata_run p fs :
  exists x, extract_exiftool_metadata lib p fs = Run (inr x) fs [ExifTool p]
            /\ (is_failure x \/ exists out, x = Val (VStr out)).
Proof.
  unfold extract_exiftool_metadata, try_except, bind, emit, read_file, lift, ret.
  simpl. destruct (exiftool lib p (fs !! p)) as [e | res]; simpl.
  - eexists; split; [reflexivity | left; eexists; reflexivity].
  - destruct (negb (returncode res =? 0)); simpl.
    + destruct (utf8_decode lib (stderr res)); simpl;
        (eexists; split; [reflexivity | left; eexists; reflexivity]).
    + destruct (utf8_decode lib (stdout res)); simpl.
      * eexists; split; [reflexivity | left; eexists; reflexivity].
      * eexists; split; [reflexivity | right; eexists; reflexivity].
Qed.

End Gateway.

(** Run the monad's operations on the spot, leaving everything else
    folded. *)
Ltac run_step :=
  cbn [bind ret raise lift emit read_file try_except print
       value files_after trace app].

(** ** The screenshot classifier *)

Section Screenshot.

Variable lib : Libs.

(** The classifier on an image that decodes: the resolution rule first,
    the EXIF rule only when no reference resolution matches. *)
Lemma check_image_for_screenshot_decoded p fs im :
  pil_open lib p (fs !! p) = inr im ->
  check_image_for_screenshot lib p fs =
  match scan_resolutions common_resolutions (fst (size im)) (snd (size im)) with
  | Some r => Run (inr r) fs [PILOpen p]
  | None =>
      Run (inr match exifread_process_file lib p (fs !! p) with
               | inl _ =>
                   verdict "Possible Screenshot (Missing or Minimal EXIF Data)" 50
               | inr tags =>
                   match tags !! "Image" with
                   | Some _ => verdict "Original Image (Not a Screenshot)" 0
                   | None =>
                       verdict "Possible Screenshot (Missing or Minimal EXIF Data)" 50
                   end
               end) fs [PILOpen p; ExifRead p]
  end.
Proof.
  intros Hopen. unfold check_image_for_screenshot.
  generalize (scan_resolutions common_resolutions). intros scan.
  rewrite (bind_run _ _ _ _ _ _ (open_image_run lib p fs)), Hopen.
  cbn [is_error_dict as_image]. run_step.
  destruct (scan (fst (size im)) (snd (size im))) as [r |]; run_step.
  - reflexivity.
  - rewrite (bind_run _ _ _ _ _ _ (extract_exif_metadata_run lib p fs)). run_step.
    destruct (exifread_process_file lib p (fs !! p)) as [e | tags].
    + unfold error_dict. cbn [obj_truth py_truth].
      rewrite map_to_list_singleton. cbn [negb py_in]. run_step.
      rewrite lookup_singleton_ne by discriminate. reflexivity.
    + cbn [obj_truth py_truth].
      destruct (map_to_list tags) as [| kv kvs] eqn:Hl.
      * apply map_to_list_empty_iff in Hl. subst tags. reflexivity.
      * cbn [negb py_in]. run_step.
        destruct (tags !! "Image"); reflexivity.
Qed.

Lemma check_image_for_screenshot_undecoded p fs e :
  pil_open lib p (fs !! p) = inl e ->
  check_image_for_screenshot lib p fs =
  Run (inr (error_dict ("Failed to open image: " +:+ exc_msg e))) fs [PILOpen p].
Proof.
  intros Hopen. unfold check_image_for_screenshot.
  rewrite (bind_run _ _ _ _ _ _ (open_image_run lib p fs)), Hopen.
  rewrite is_error_dict_error_dict. reflexivity.
Qed.

(** C5: an image of exactly 1920 by 1080 gets the verdict "Possible
    Screenshot (Common Screen Resolution)" with score 35, whatever the
    libraries answer about its EXIF data: the run opens the image and
    returns, and the EXIF extraction is never called. *)
Theorem full_hd_is_screenshot p fs im :
  pil_open lib p (fs !! p) = inr im ->
  size im = (1920, 1080) ->
  check_image_for_screenshot lib p fs =
  Run (inr (verdict "Possible Screenshot (Common Screen Resolution)" 35))
      fs [PILOpen p].
Proof.
  intros Hopen Hsize.
  rewrite (check_image_for_screenshot_decoded p fs im Hopen), Hsize.
  reflexivity.
Qed.

(** C6: when the image decodes, the EXIF extraction fails and the
    resolution is within ten percent of no reference resolution, the
    classifier returns the verdict "Possible Screenshot (Missing or Minimal
    EXIF Data)" with score 50; the failure of the extraction is not
    raised. *)
Theorem exif_failure_scores_50 p fs im e :
  pil_open lib p (fs !! p) = inr im ->
  exifread_process_file lib p (fs !! p) = inl e ->
  (forall res, In res common_resolutions ->
               ~ within_tolerance (fst (size im)) (snd (size im)) res) ->
  value (extract_exif_metadata lib p fs)
  = inr (error_dict ("Failed to read EXIF metadata: " +:+ exc_msg e))
  /\ check_image_for_screenshot lib p fs =
     Run (inr (verdict "Possible Screenshot (Missing or Minimal EXIF Data)" 50))
         fs [PILOpen p; ExifRead p].
Proof.
  intros Hopen Hexif Hres. split.
  - rewrite extract_exif_metadata_run, Hexif. reflexivity.
  - rewrite (check_image_for_screenshot_decoded p fs im Hopen).
    rewrite (no_reference_within_tolerance _ _ Hres), Hexif. reflexivity.
Qed.

(** The EXIF rule looks up the key ["Image"] itself: with no matching
    resolution the verdict is "Original Image" exactly when the tags have
    an entry under that very name. *)
Lemma original_verdict_needs_image_key p fs im tags :
  pil_open lib p (fs !! p) = inr im ->
  exifread_process_file lib p (fs !! p) = inr tags ->
  scan_resolutions common_resolutions (fst (size im)) (snd (size im)) = None ->
  value (check_image_for_screenshot lib p fs)
  = inr (verdict "Original Image (Not a Screenshot)" 0)
  <-> is_Some (tags !! "Image").
Proof.
  intros Hopen Hexif Hscan.
  rewrite (check_image_for_screenshot_decoded p fs im Hopen), Hscan, Hexif.
  simpl. destruct (tags !! "Image") as [v |]; split.
  - intros _. exists v. reflexivity.
  - reflexivity.
  - intros H. inversion H.
  - intros [v H]. discriminate.
Qed.

End Screenshot.

(** The ten percent band of each reference resolution misses 4000 by 3000. *)
Lemma photo_4000_3000_matches_nothing res :
  In res common_resolutions -> ~ within_tolerance 4000 3000 res.
Proof.
  intros Hin. unfold common_resolutions in Hin. simpl in Hin.
  unfold within_tolerance.
  repeat destruct Hin as [<- | Hin]; try contradiction; simpl; lia.
Qed.

Lemma full_hd_is_screenshot_witness :
  check_image_for_screenshot camera_lib_1080p "screen.png" ∅ =
  Run (inr (verdict "Possible Screenshot (Common Screen Resolution)" 35))
      ∅ [PILOpen "screen.png"].
Proof.
  apply (full_hd_is_screenshot camera_lib_1080p "screen.png" ∅ (photo 1920 1080 ∅));
    reflexivity.
Defined.

Lemma exif_failure_scores_50_witness :
  check_image_for_screenshot no_exif_lib "scan.png" ∅ =
  Run (inr (verdict "Possible Screenshot (Missing or Minimal EXIF Data)" 50))
      ∅ [PILOpen "scan.png"; ExifRead "scan.png"].
Proof.
  apply (exif_failure_scores_50 no_exif_lib "scan.png" ∅ (photo 4000 3000 ∅)
           (Exc "OSError" "File format not recognized.")).
  - reflexivity.
  - reflexivity.
  - exact photo_4000_3000_matches_nothing.
Defined.

(** C2: a 4000 by 3000 photograph whose EXIF extraction succeeds with the
    tags "Image Make" and "Image Model" is within ten percent of no
    reference resolution, and yet the classifier answers "Possible
    Screenshot (Missing or Minimal EXIF Data)" with score 50, not
    "Original Image (Not a Screenshot)" with score 0. *)
Theorem camera_photo_scored_as_screenshot :
  pil_open camera_lib "IMG_0001.jpg" (camera_files !! "IMG_0001.jpg")
  = inr (photo 4000 3000 ∅)
  /\ exifread_process_file camera_lib "IMG_0001.jpg" (camera_files !! "IMG_0001.jpg")
     = inr camera_tags
  /\ is_Some (camera_tags !! "Image Make")
  /\ starts_with "Image" "Image Make" = true
  /\ (forall res, In res common_resolutions -> ~ within_tolerance 4000 3000 res)
  /\ check_image_for_screenshot camera_lib "IMG_0001.jpg" camera_files =
     Run (inr (verdict "Possible Screenshot (Missing or Minimal EXIF Data)" 50))
         camera_files [PILOpen "IMG_0001.jpg"; ExifRead "IMG_0001.jpg"].
Proof.
  split; [reflexivity |]. split; [reflexivity |].
  split; [exists (VOpaque true "Canon"); reflexivity |].
  split; [reflexivity |].
  split; [exact photo_4000_3000_matches_nothing |].
  rewrite (check_image_for_screenshot_decoded camera_lib _ _ (photo 4000 3000 ∅))
    by reflexivity.
  cbn [photo size fst snd].
  rewrite (no_reference_within_tolerance 4000 3000 photo_4000_3000_matches_nothing).
  reflexivity.
Qed.

(** ** The forgery scorer *)

Lemma software_check_dict d s fs :
  software_check (Val (VDict d)) s fs =
  Run (inr (if match d !! "Software" with
               | Some v => py_truth v
               | None => false
               end
            then s + 40 else s)) fs [].
Proof.
  unfold software_check. cbn [py_in py_getitem].
  destruct (d !! "Software") as [v |]; run_step.
  - destruct (py_truth v); reflexivity.
  - reflexivity.
Qed.

Lemma has_software_dict d :
  has_software (Val (VDict d)) <->
  match d !! "Software" with Some v => py_truth v | None => false end = true.
Proof.
  unfold has_software. split.
  - intros (d' & v & Heq & Hv & Ht). inversion Heq; subst d'.
    rewrite Hv. exact Ht.
  - destruct (d !! "Software") as [v |] eqn:Hv; [| discriminate].
    intros Ht. exists d, v. auto.
Qed.

(** The Software check adds 40 exactly when the mapping has a non-empty
    [Software] entry. *)
Lemma software_check_spec d s fs :
  exists s', software_check (Val (VDict d)) s fs = Run (inr s') fs []
             /\ (has_software (Val (VDict d)) /\ s' = s + 40
                 \/ ~ has_software (Val (VDict d)) /\ s' = s).
Proof.
  pose proof (has_software_dict d) as Hiff.
  exists (if match d !! "Software" with Some v => py_truth v | None => false end
          then s + 40 else s).
  split; [apply software_check_dict |].
  destruct (match d !! "Software" with Some v => py_truth v | None => false end).
  - left. split; [apply Hiff |]; reflexivity.
  - right. split; [| reflexivity]. intros H. apply Hiff in H. discriminate.
Qed.

Lemma software_check_failure msg s fs :
  software_check (error_dict msg) s fs = Run (inr s) fs [].
Proof.
  unfold error_dict. rewrite software_check_dict.
  rewrite lookup_singleton_ne by discriminate. reflexivity.
Qed.

Lemma software_check_empty s fs :
  software_check (Val (VDict ∅)) s fs = Run (inr s) fs [].
Proof. rewrite software_check_dict, lookup_empty. reflexivity. Qed.

Lemma signature_check_text out s fs :
  signature_check (Val (VStr out)) s fs =
  Run (inr (if is_substring "Inkscape" out || is_substring "Photoshop" out
            then s + 40 else s)) fs [].
Proof.
  unfold signature_check. cbn [py_in].
  destruct (is_substring "Inkscape" out); run_step.
  - reflexivity.
  - cbn [py_in]. destruct (is_substring "Photoshop" out); reflexivity.
Qed.

(** On a failure mapping [in] is a key lookup, and the only key is
    ["error"]: the check adds nothing, whatever the message says. *)
Lemma signature_check_failure msg s fs :
  signature_check (error_dict msg) s fs = Run (inr s) fs [].
Proof.
  unfold signature_check, error_dict. cbn [py_in].
  rewrite !lookup_singleton_ne by discriminate. reflexivity.
Qed.

Lemma names_editor_text out :
  names_editor (Val (VStr out)) <->
  is_substring "Inkscape" out || is_substring "Photoshop" out = true.
Proof.
  unfold names_editor. rewrite orb_true_iff, !is_substring_spec. split.
  - intros (s & Heq & H). inversion Heq; subst s. exact H.
  - intros H. exists out. auto.
Qed.

Lemma names_editor_failure msg : ~ names_editor (error_dict msg).
Proof. intros (s & Heq & _). discriminate. Qed.

Lemma signature_check_spec tool s fs :
  is_failure tool \/ (exists out, tool = Val (VStr out)) ->
  exists s', signature_check tool s fs = Run (inr s') fs []
             /\ (names_editor tool /\ s' = s + 40
                 \/ ~ names_editor tool /\ s' = s).
Proof.
  intros [[msg ->] | [out ->]].
  - exists s. split; [apply signature_check_failure |].
    right. split; [apply names_editor_failure | reflexivity].
  - pose proof (names_editor_text out) as Hiff.
    exists (if is_substring "Inkscape" out || is_substring "Photoshop" out
            then s + 40 else s).
    split; [apply signature_check_text |].
    destruct (is_substring "Inkscape" out || is_substring "Photoshop" out).
    + left. split; [apply Hiff |]; reflexivity.
    + right. split; [| reflexivity]. intros H. apply Hiff in H. discriminate.
Qed.

Section Forgery.

Variable lib : Libs.

(** The basic attributes are always a mapping: the image's [info], or the
    failure of the decode. *)
Lemma extract_basic_metadata_dict p fs :
  exists d, extract_basic_metadata lib p fs = Run (inr (Val (VDict d))) fs [PILOpen p]
            /\ (is_failure (Val (VDict d))
                \/ exists im, pil_open lib p (fs !! p) = inr im /\ d = info im).
Proof.
  rewrite extract_basic_metadata_run.
  destruct (pil_open lib p (fs !! p)) as [e | im].
  - eexists. split; [reflexivity |]. left. eexists. reflexivity.
  - eexists. split; [reflexivity |]. right. exists im. auto.
Qed.

(** The scorer runs the three extractions and then the two checks, from
    score 0, on what the first and the third returned. *)
Lemma check_image_for_forgery_run p fs :
  exists d tool s1 s2,
    extract_basic_metadata lib p fs = Run (inr (Val (VDict d))) fs [PILOpen p]
    /\ extract_exiftool_metadata lib p fs = Run (inr tool) fs [ExifTool p]
    /\ (is_failure tool \/ exists out, tool = Val (VStr out))
    /\ software_check (Val (VDict d)) 0 fs = Run (inr s1) fs []
    /\ signature_check tool s1 fs = Run (inr s2) fs []
    /\ check_image_for_forgery lib p fs =
       Run (inr (Val (VInt s2))) fs [PILOpen p; ExifRead p; ExifTool p].
Proof.
  destruct (extract_basic_metadata_dict p fs) as (d & Hbasic & _).
  destruct (extract_exiftool_metadata_run lib p fs) as (tool & Htool & Hkind).
  destruct (software_check_spec d 0 fs) as (s1 & Hs1 & _).
  destruct (signature_check_spec tool s1 fs Hkind) as (s2 & Hs2 & _).
  exists d, tool, s1, s2. repeat (split; [assumption |]).
  unfold check_image_for_forgery.
  rewrite (bind_run _ _ _ _ _ _ Hbasic).
  rewrite (bind_run _ _ _ _ _ _ (extract_exif_metadata_run lib p fs)).
  rewrite (bind_run _ _ _ _ _ _ Htool).
  rewrite (bind_run _ _ _ _ _ _ Hs1).
  rewrite (bind_run _ _ _ _ _ _ Hs2).
  reflexivity.
Qed.

(** C4: the forgery score is 0 when the basic attributes have no non-empty
    Software entry and the tool output names neither Inkscape nor
    Photoshop, 40 when exactly one of the two holds, and 80 when both
    hold. *)
Theorem forgery_score_0_40_80 p fs :
  exists basic tool score,
    value (extract_basic_metadata lib p fs) = inr basic
    /\ value (extract_exiftool_metadata lib p fs) = inr tool
    /\ value (check_image_for_forgery lib p fs) = inr (Val (VInt score))
    /\ (~ has_software basic /\ ~ names_editor tool -> score = 0)
    /\ (has_software basic /\ ~ names_editor tool -> score = 40)
    /\ (~ has_software basic /\ names_editor tool -> score = 40)
    /\ (has_software basic /\ names_editor tool -> score = 80).
Proof.
  destruct (check_image_for_forgery_run p fs)
    as (d & tool & s1 & s2 & Hbasic & Htool & Hkind & Hs1 & Hs2 & Hrun).
  exists (Val (VDict d)), tool, s2.
  rewrite Hbasic, Htool, Hrun. cbn [value].
  repeat (split; [reflexivity |]).
  destruct (software_check_spec d 0 fs) as (s1' & Hs1' & Hsoft).
  destruct (signature_check_spec tool s1 fs Hkind) as (s2' & Hs2' & Hsig).
  assert (s1' = s1) by congruence. assert (s2' = s2) by congruence. subst.
  repeat split; intros [Ha Hb];
    destruct Hsoft as [[Hs ->] | [Hs ->]]; destruct Hsig as [[Ht ->] | [Ht ->]];
    try contradiction; reflexivity.
Qed.

(** C7: a failure or an empty mapping as basic attributes leaves the score
    as the Software check found it, a failure of the tool extraction leaves
    it as the signature check found it, and the scorer always returns a
    number: the two checks applied in turn from 0 to what the extractions
    returned. *)
Theorem forgery_checks_absorb_failures p fs :
  (forall basic s fs',
      is_failure basic \/ basic = Val (VDict ∅) ->
      software_check basic s fs' = Run (inr s) fs' [])
  /\ (forall tool s fs',
         is_failure tool -> signature_check tool s fs' = Run (inr s) fs' [])
  /\ exists basic tool s1 s2,
       value (extract_basic_metadata lib p fs) = inr basic
       /\ value (extract_exiftool_metadata lib p fs) = inr tool
       /\ value (software_check basic 0 fs) = inr s1
       /\ value (signature_check tool s1 fs) = inr s2
       /\ value (check_image_for_forgery lib p fs) = inr (Val (VInt s2)).
Proof.
  split; [| split].
  - intros basic s fs' [[msg ->] | ->].
    + apply software_check_failure.
    + apply software_check_empty.
  - intros tool s fs' [msg ->]. apply signature_check_failure.
  - destruct (check_image_for_forgery_run p fs)
      as (d & tool & s1 & s2 & Hbasic & Htool & _ & Hs1 & Hs2 & Hrun).
    exists (Val (VDict d)), tool, s1, s2.
    rewrite Hbasic, Htool, Hs1, Hs2, Hrun. repeat split.
Qed.

(** C10: when the tool extraction fails, its failure mapping has neither
    the key "Inkscape" nor the key "Photoshop", whatever its message text
    says; the signature check adds nothing and the score is the one the
    Software check alone gives. *)
Theorem tool_failure_text_never_scores p fs msg :
  value (extract_exiftool_metadata lib p fs) = inr (error_dict msg) ->
  py_in "Inkscape" (error_dict msg) = inr false
  /\ py_in "Photoshop" (error_dict msg) = inr false
  /\ (forall s fs', signature_check (error_dict msg) s fs' = Run (inr s) fs' [])
  /\ exists basic s1,
       value (extract_basic_metadata lib p fs) = inr basic
       /\ value (software_check basic 0 fs) = inr s1
       /\ value (check_image_for_forgery lib p fs) = inr (Val (VInt s1)).
Proof.
  intros Hfail.
  assert (Hin : forall k, k <> "error" -> py_in k (error_dict msg) = inr false).
  { intros k Hk. unfold error_dict. cbn [py_in].
    rewrite lookup_singleton_ne by congruence. reflexivity. }
  split; [apply Hin; discriminate |]. split; [apply Hin; discriminate |].
  split; [intros s fs'; apply signature_check_failure |].
  destruct (check_image_for_forgery_run p fs)
    as (d & tool & s1 & s2 & Hbasic & Htool & _ & Hs1 & Hs2 & Hrun).
  rewrite Htool in Hfail. cbn [value] in Hfail. inversion Hfail; subst tool.
  rewrite signature_check_failure in Hs2. inversion Hs2; subst s2.
  exists (Val (VDict d)), s1. rewrite Hbasic, Hs1, Hrun. repeat split.
Qed.

End Forgery.

Lemma tool_failure_text_never_scores_witness :
  contains "Error: Photoshop IRB is truncated" "Photoshop"
  /\ py_in "Photoshop" (error_dict "Error: Photoshop IRB is truncated") = inr false
  /\ value (check_image_for_forgery tool_error_lib "IMG_0001.jpg" camera_files)
     = inr (Val (VInt 0)).
Proof.
  destruct (tool_failure_text_never_scores tool_error_lib "IMG_0001.jpg" camera_files
              "Error: Photoshop IRB is truncated")
    as (_ & Hkey & _ & basic & s1 & Hbasic & Hs1 & Hscore).
  - reflexivity.
  - split; [exists "Error: ", " IRB is truncated"; reflexivity |].
    split; [exact Hkey |].
    rewrite Hscore. rewrite extract_basic_metadata_run in Hbasic.
    cbn in Hbasic. inversion Hbasic; subst basic.
    rewrite software_check_empty in Hs1. cbn in Hs1. inversion Hs1. reflexivity.
Defined.

(** Unfold the monad's operations everywhere, also under binders. *)
Ltac run_all :=
  cbv beta iota zeta delta
    [bind ret raise lift emit read_file try_except print
     value files_after trace app].

(** ** The error-level analyzer *)

Section ELA.

Variable lib : Libs.

Lemma perform_ela_analysis_undecoded p q fs e :
  pil_open lib p (fs !! p) = inl e ->
  perform_ela_analysis lib p q fs =
  Run (inr (error_dict ("Failed to open image: " +:+ exc_msg e))) fs [PILOpen p].
Proof.
  intros Hopen. unfold perform_ela_analysis.
  rewrite (bind_run _ _ _ _ _ _ (open_image_run lib p fs)), Hopen.
  rewrite is_error_dict_error_dict. reflexivity.
Qed.

(** After a successful decode the analyzer saves to [ela_path]; what
    follows (reopening the artifact, taking the difference) reads only. *)
Lemma perform_ela_analysis_decoded p q fs im :
  pil_open lib p (fs !! p) = inr im ->
  exists x t,
    perform_ela_analysis lib p q fs =
    Run (inr x)
        match pil_save_jpeg lib im q with
        | Saved content => <[ela_path := content]> fs
        | SaveFailed _ residue => partial_alter residue ela_path fs
        end
        (PILOpen p :: PILSave ela_path q :: t)
    /\ forallb (fun e => negb (is_print e)) t = true
    /\ forall path' q', In (PILSave path' q') t -> False.
Proof.
  intros Hopen. unfold perform_ela_analysis.
  rewrite (bind_run _ _ _ _ _ _ (open_image_run lib p fs)), Hopen.
  cbn [is_error_dict as_image]. unfold Image_save, Image_open,
    ImageChops_difference. run_all.
  destruct (pil_save_jpeg lib im q) as [content | e residue]; run_all.
  - destruct (pil_open lib ela_path (<[ela_path := content]> fs !! ela_path))
      as [e | reopened]; run_all.
    + eexists _, [PILOpen ela_path]. split; [reflexivity |].
      split; [reflexivity |]. intros ? ? [H | []]. discriminate.
    + destruct (pil_difference lib im reopened) as [e | diff]; run_all;
        (eexists _, [PILOpen ela_path; PILDifference]; split; [reflexivity |];
         split; [reflexivity |]; intros ? ? [H | [H | []]]; discriminate).
  - eexists _, []. split; [reflexivity |]. split; [reflexivity |].
    intros ? ? [].
Qed.

Lemma perform_ela_analysis_total p q : total (perform_ela_analysis lib p q).
Proof.
  intros fs. destruct (pil_open lib p (fs !! p)) as [e | im] eqn:Hopen.
  - rewrite (perform_ela_analysis_undecoded p q fs e Hopen). eexists; reflexivity.
  - destruct (perform_ela_analysis_decoded p q fs im Hopen) as (x & t & -> & _).
    exists x. reflexivity.
Qed.

Lemma perform_ela_analysis_silent p q : silent (perform_ela_analysis lib p q).
Proof.
  intros fs. destruct (pil_open lib p (fs !! p)) as [e | im] eqn:Hopen.
  - rewrite (perform_ela_analysis_undecoded p q fs e Hopen). reflexivity.
  - destruct (perform_ela_analysis_decoded p q fs im Hopen) as (x & t & -> & Ht & _).
    exact Ht.
Qed.

(** The analyzer has no step that removes the artifact. *)
Lemma perform_ela_analysis_keeps_artifact p q fs im content :
  pil_open lib p (fs !! p) = inr im ->
  pil_save_jpeg lib im q = Saved content ->
  files_after (perform_ela_analysis lib p q fs) !! ela_path = Some content.
Proof.
  intros Hopen Hsave.
  destruct (perform_ela_analysis_decoded p q fs im Hopen) as (x & t & -> & _).
  cbn [files_after]. rewrite Hsave. apply lookup_insert_eq.
Qed.

(** C8, as the code has it: the re-encode artifact goes to the fixed path
    "ela_image.jpg", the same for every source and every run; no other
    path of the file system changes; when the initial open fails nothing is
    written; and when the save succeeds the re-encoded bytes are still
    stored under that path when the run ends, whether the rest of the run
    succeeds or fails. *)
Theorem ela_artifact_fixed_path_kept p q fs :
  (forall path, path <> "ela_image.jpg" ->
                files_after (perform_ela_analysis lib p q fs) !! path = fs !! path)
  /\ (forall path' q', In (PILSave path' q') (trace (perform_ela_analysis lib p q fs)) ->
                       path' = "ela_image.jpg")
  /\ (forall e, pil_open lib p (fs !! p) = inl e ->
                files_after (perform_ela_analysis lib p q fs) = fs)
  /\ (forall im content,
         pil_open lib p (fs !! p) = inr im ->
         pil_save_jpeg lib im q = Saved content ->
         files_after (perform_ela_analysis lib p q fs) !! "ela_image.jpg"
         = Some content).
Proof.
  destruct (pil_open lib p (fs !! p)) as [e | im] eqn:Hopen.
  - rewrite (perform_ela_analysis_undecoded p q fs e Hopen). cbn [files_after trace].
    repeat split.
    + intros path' q' [H | []]. discriminate.
    + intros im content H. discriminate.
  - destruct (perform_ela_analysis_decoded p q fs im Hopen)
      as (x & t & -> & _ & Hsaves).
    cbn [files_after trace]. repeat split.
    + intros path Hne.
      destruct (pil_save_jpeg lib im q) as [content | e residue].
      * apply lookup_insert_ne. unfold ela_path. congruence.
      * apply lookup_partial_alter_ne. unfold ela_path. congruence.
    + intros path' q' [H | [H | H]].
      * discriminate.
      * inversion H. reflexivity.
      * destruct (Hsaves path' q' H).
    + intros e H. discriminate.
    + intros im' content Him Hsave. inversion Him; subst im'.
      rewrite <- (perform_ela_analysis_keeps_artifact p q fs im content Hopen Hsave).
      destruct (perform_ela_analysis_decoded p q fs im Hopen) as (x' & t' & -> & _).
      reflexivity.
Qed.

End ELA.

(** C8, as stated, fails: there was no "ela_image.jpg" before; the run on
    "a.png" and the run on "b.png" after it both save to "ela_image.jpg";
    and the artifact of the first run is still in the file system when the
    run is over. *)
Lemma ela_artifact_shared_and_left_behind :
  ela_files !! "ela_image.jpg" = None
  /\ In (PILSave "ela_image.jpg" 90)
        (trace (perform_ela_analysis ela_lib "a.png" 90 ela_files))
  /\ In (PILSave "ela_image.jpg" 90)
        (trace (perform_ela_analysis ela_lib "b.png" 90
                  (files_after (perform_ela_analysis ela_lib "a.png" 90 ela_files))))
  /\ files_after (perform_ela_analysis ela_lib "a.png" 90 ela_files) !! "ela_image.jpg"
     = Some [Byte.xff; Byte.xd8]
  /\ files_after (perform_ela_analysis ela_lib "a.png" 90 ela_files) <> ela_files.
Proof.
  assert (Hleft :
    files_after (perform_ela_analysis ela_lib "a.png" 90 ela_files) !! "ela_image.jpg"
    = Some [Byte.xff; Byte.xd8]).
  { apply (perform_ela_analysis_keeps_artifact ela_lib "a.png" 90 ela_files
             (photo 4000 3000 ∅)); reflexivity. }
  split; [reflexivity |].
  split; [right; left; reflexivity |].
  split; [right; left; reflexivity |].
  split; [exact Hleft |].
  intros Heq. rewrite Heq in Hleft. discriminate.
Qed.

(** ** The clone / edge detector *)

Lemma clamp_lt n i : (0 < n)%nat -> (Canny.clamp n i < n)%nat.
Proof. unfold Canny.clamp. lia. Qed.

Lemma nth_all_false (m : list bool) k :
  Forall (eq false) m -> nth k m false = false.
Proof.
  revert k. induction m as [| b m IH]; intros k Hall.
  - destruct k; reflexivity.
  - inversion Hall; subst. destruct k; [reflexivity | simpl; auto].
Qed.

Section Uniform.

Variables (a : ndarray) (c : Z).
Hypothesis well_formed : length (buf a) = (nrows a * ncols a)%nat.
Hypothesis uniform : Forall (eq c) (buf a).

Lemma pixel_uniform i j :
  (0 < nrows a)%nat -> (0 < ncols a)%nat -> Canny.pixel a i j = c.
Proof.
  intros Hr Hc. unfold Canny.pixel. symmetry.
  apply (proj1 (List.Forall_nth (eq c) (buf a)) uniform).
  rewrite well_formed.
  pose proof (clamp_lt (nrows a) i Hr). pose proof (clamp_lt (ncols a) j Hc).
  nia.
Qed.

Lemma magnitude_uniform i j :
  (0 < nrows a)%nat -> (0 < ncols a)%nat -> Canny.magnitude a i j = 0.
Proof.
  intros Hr Hc. unfold Canny.magnitude, Canny.grad_x, Canny.grad_y.
  rewrite !pixel_uniform by assumption. lia.
Qed.

Lemma cell_in_grid k :
  In k (Canny.cells a) -> (0 < nrows a)%nat /\ (0 < ncols a)%nat.
Proof. unfold Canny.cells. rewrite in_seq. nia. Qed.

Lemma strong_uniform hi : 0 <= hi -> Forall (eq false) (Canny.strong a hi).
Proof.
  intros Hhi. unfold Canny.strong. apply List.Forall_forall.
  intros b Hb. apply in_map_iff in Hb. destruct Hb as (k & <- & Hk).
  destruct (cell_in_grid k Hk) as [Hr Hc].
  rewrite magnitude_uniform by assumption. symmetry. apply Z.ltb_ge. exact Hhi.
Qed.

Lemma link_uniform lo m :
  0 <= lo -> Forall (eq false) m -> Forall (eq false) (Canny.link a lo m).
Proof.
  intros Hlo Hm. unfold Canny.link. apply List.Forall_forall.
  intros b Hb. apply in_map_iff in Hb. destruct Hb as (k & <- & Hk).
  destruct (cell_in_grid k Hk) as [Hr Hc].
  rewrite (nth_all_false m k Hm), magnitude_uniform by assumption.
  replace (lo <? 0) with false by (symmetry; apply Z.ltb_ge; exact Hlo).
  reflexivity.
Qed.

Lemma link_rounds_uniform n lo m :
  0 <= lo -> Forall (eq false) m -> Forall (eq false) (Canny.link_rounds n a lo m).
Proof.
  intros Hlo. revert m. induction n as [| n IH]; intros m Hm; simpl.
  - exact Hm.
  - apply IH. apply link_uniform; assumption.
Qed.

Lemma canny_uniform lo hi :
  0 <= lo -> 0 <= hi -> Forall (eq 0) (buf (cv2_Canny a lo hi)).
Proof.
  intros Hlo Hhi. unfold cv2_Canny, Canny.hysteresis. cbn [buf].
  apply Forall_map.
  eapply Forall_impl; [apply link_rounds_uniform; auto using strong_uniform |].
  intros b <-. reflexivity.
Qed.

End Uniform.

Lemma link_rounds_length n a lo m :
  length m = (nrows a * ncols a)%nat ->
  length (Canny.link_rounds n a lo m) = (nrows a * ncols a)%nat.
Proof.
  revert m. induction n as [| n IH]; intros m Hm; simpl.
  - exact Hm.
  - apply IH. unfold Canny.link, Canny.cells.
    rewrite length_map, length_seq. reflexivity.
Qed.

(** The edge map has the shape of the image, one cell per pixel. *)
Lemma canny_shape image lo hi :
  nrows (cv2_Canny image lo hi) = nrows image
  /\ ncols (cv2_Canny image lo hi) = ncols image
  /\ length (buf (cv2_Canny image lo hi)) = (nrows image * ncols image)%nat.
Proof.
  unfold cv2_Canny, Canny.hysteresis. cbn [nrows ncols buf].
  repeat split. rewrite length_map. apply link_rounds_length.
  unfold Canny.strong, Canny.cells. rewrite length_map, length_seq. reflexivity.
Qed.

Lemma canny_binary image lo hi :
  Forall (fun v => v = 0 \/ v = 255) (buf (cv2_Canny image lo hi)).
Proof.
  unfold cv2_Canny. cbn [buf]. apply Forall_map.
  apply List.Forall_forall. intros [|] _; [right | left]; reflexivity.
Qed.

(** A step from black to white is an edge along the step, and only there. *)
Lemma canny_finds_step :
  buf (cv2_Canny step_3x4 100 200)
  = [0; 255; 255; 0;
     0; 255; 255; 0;
     0; 255; 255; 0].
Proof. vm_compute. reflexivity. Qed.

Section CloneDetector.

Variable lib : Libs.

Lemma detect_clone_patterns_run p fs :
  detect_clone_patterns lib p fs =
  match cv2_imread_gray lib p (fs !! p) with
  | inl e => Run (inl e) fs [CvImread p]
  | inr None =>
      Run (inr (error_dict "Failed to read the image for clone detection."))
          fs [CvImread p]
  | inr (Some image) =>
      Run (inr (Arr (cv2_Canny image 100 200))) fs [CvImread p; CvCanny 100 200]
  end.
Proof.
  unfold detect_clone_patterns. run_all.
  destruct (cv2_imread_gray lib p (fs !! p)) as [e | [image |]]; reflexivity.
Qed.

(** C9: when the detector can read the image as grayscale, the edge map it
    returns has the image's height and width, every cell is 0 (no edge) or
    255 (edge), and for a uniform image, an all-black one included, every
    cell is 0. *)
Theorem edge_map_shape_binary_uniform p fs image :
  cv2_imread_gray lib p (fs !! p) = inr (Some image) ->
  exists edges,
    value (detect_clone_patterns lib p fs) = inr (Arr edges)
    /\ nrows edges = nrows image
    /\ ncols edges = ncols image
    /\ length (buf edges) = (nrows image * ncols image)%nat
    /\ Forall (fun v => v = 0 \/ v = 255) (buf edges)
    /\ (forall c, length (buf image) = (nrows image * ncols image)%nat ->
                  Forall (eq c) (buf image) ->
                  Forall (eq 0) (buf edges)).
Proof.
  intros Hread. exists (cv2_Canny image 100 200).
  rewrite detect_clone_patterns_run, Hread.
  destruct (canny_shape image 100 200) as (Hr & Hc & Hlen).
  split; [reflexivity |]. repeat (split; [assumption |]).
  split; [apply canny_binary |].
  intros c Hwf Huni. apply (canny_uniform image c Hwf Huni); lia.
Qed.

End CloneDetector.

Lemma edge_map_shape_binary_uniform_witness :
  exists edges,
    value (detect_clone_patterns (gray_lib (uniform_3x3 0)) "black.png" ∅)
    = inr (Arr edges)
    /\ nrows edges = 3%nat /\ ncols edges = 3%nat
    /\ Forall (eq 0) (buf edges).
Proof.
  destruct (edge_map_shape_binary_uniform (gray_lib (uniform_3x3 0)) "black.png" ∅
              (uniform_3x3 0))
    as (edges & Hval & Hr & Hc & _ & _ & Huni).
  - reflexivity.
  - exists edges. repeat (split; [assumption |]).
    apply (Huni 0); [reflexivity |].
    repeat constructor.
Defined.

(** ** What a computation emits, and the files it keeps *)

Lemma emits_ret {A} P (a : A) : emits P (ret a).
Proof. intros fs. constructor. Qed.

Lemma emits_raise {A} P e : emits P (@raise A e).
Proof. intros fs. constructor. Qed.

Lemma emits_lift {A} P (r : result A) : emits P (lift r).
Proof. intros fs. constructor. Qed.

Lemma emits_read_file P path : emits P (read_file path).
Proof. intros fs. constructor. Qed.

Lemma emits_emit (P : event -> Prop) e : P e -> emits P (emit e).
Proof. intros H fs. repeat constructor. exact H. Qed.

Lemma emits_bind {A B} P (m : M A) (k : A -> M B) :
  emits P m -> (forall a, emits P (k a)) -> emits P (bind m k).
Proof.
  intros Hm Hk fs. unfold bind. specialize (Hm fs).
  destruct (value (m fs)) as [e | a]; cbn [trace]; [exact Hm |].
  apply Forall_app. split; [exact Hm | apply Hk].
Qed.

Lemma emits_try {A} P (body : M A) handler :
  emits P body -> (forall e, emits P (handler e)) -> emits P (try_except body handler).
Proof.
  intros Hb Hh fs. unfold try_except. specialize (Hb fs).
  destruct (value (body fs)) as [e | a]; cbn [trace]; [| exact Hb].
  apply Forall_app. split; [exact Hb | apply Hh].
Qed.

(** A computation that prints nothing emits only what a library call can
    be. *)
Lemma silent_emits {A} (P : event -> Prop) (m : M A) :
  silent m -> (forall e, is_print e = false -> P e) -> emits P m.
Proof.
  intros Hs HP fs. specialize (Hs fs).
  induction (trace (m fs)) as [| e t IH]; [constructor |].
  simpl in Hs. apply andb_true_iff in Hs. destruct Hs as [He Ht].
  constructor; [| exact (IH Ht)].
  apply HP. destruct (is_print e); [discriminate | reflexivity].
Qed.

Lemma keeps_ret {A} path (a : A) : keeps path (ret a).
Proof. intros fs. reflexivity. Qed.

Lemma keeps_emit path e : keeps path (emit e).
Proof. intros fs. reflexivity. Qed.

Lemma keeps_lift {A} path (r : result A) : keeps path (lift r).
Proof. intros fs. reflexivity. Qed.

Lemma keeps_bind {A B} path (m : M A) (k : A -> M B) :
  keeps path m -> (forall a, keeps path (k a)) -> keeps path (bind m k).
Proof.
  intros Hm Hk fs. unfold bind. specialize (Hm fs).
  destruct (value (m fs)) as [e | a]; cbn [files_after]; [exact Hm |].
  rewrite Hk. exact Hm.
Qed.

Lemma read_only_keeps {A} path (m : M A) : read_only m -> keeps path m.
Proof. intros H fs. rewrite H. reflexivity. Qed.

Lemma reported_totals_none t :
  Forall (fun e => total_of e = None) t -> reported_totals t = [].
Proof.
  induction 1 as [| e t He _ IH]; [reflexivity |].
  unfold reported_totals in *. simpl. rewrite He. exact IH.
Qed.

(** ** The orchestrator *)

Lemma reported_totals_app t1 t2 :
  reported_totals (t1 ++ t2) = reported_totals t1 ++ reported_totals t2.
Proof. apply omap_app. Qed.

Lemma reported_totals_cons e t :
  reported_totals (e :: t)
  = match total_of e with Some v => [v] | None => [] end ++ reported_totals t.
Proof. unfold reported_totals. simpl. destruct (total_of e); reflexivity. Qed.

Lemma reported_totals_silent t :
  forallb (fun e => negb (is_print e)) t = true -> reported_totals t = [].
Proof.
  induction t as [| e t IH]; intros H; [reflexivity |].
  simpl in H. apply andb_true_iff in H. destruct H as [He Ht].
  destruct e; try discriminate; exact (IH Ht).
Qed.

Lemma unpack_error_1 :
  unpack_error 1 = Exc "ValueError" "not enough values to unpack (expected 2, got 1)".
Proof. vm_compute. reflexivity. Qed.

(** [min(total, 100)] on integers. *)
Lemma py_min_100 x : py_min (VInt x) (VInt 100) = inr (VInt (Z.min 100 x)).
Proof.
  unfold py_min. destruct (Z.ltb_spec 100 x); f_equal; f_equal; lia.
Qed.

Section Orchestrator.

Variable lib : Libs.

Lemma check_image_for_screenshot_read_only p :
  read_only (check_image_for_screenshot lib p).
Proof.
  intros fs. destruct (pil_open lib p (fs !! p)) as [e | im] eqn:Hopen.
  - rewrite (check_image_for_screenshot_undecoded lib p fs e Hopen). reflexivity.
  - rewrite (check_image_for_screenshot_decoded lib p fs im Hopen).
    destruct (scan_resolutions _ _ _); reflexivity.
Qed.

Lemma check_image_for_screenshot_silent p :
  silent (check_image_for_screenshot lib p).
Proof.
  intros fs. destruct (pil_open lib p (fs !! p)) as [e | im] eqn:Hopen.
  - rewrite (check_image_for_screenshot_undecoded lib p fs e Hopen). reflexivity.
  - rewrite (check_image_for_screenshot_decoded lib p fs im Hopen).
    destruct (scan_resolutions _ _ _); reflexivity.
Qed.

(** C3: when the initial decode fails, the run ends at once with an
    exception raised to the caller (the failure mapping cannot be unpacked
    into a label and a score); it has printed its first line and tried to
    open the image, and nothing else: no score, no metadata extraction, no
    pixel transform, no file written. *)
Theorem decode_failure_aborts_run p fs e :
  pil_open lib p (fs !! p) = inl e ->
  analyze_image lib p fs =
  Run (inl (Exc "ValueError" "not enough values to unpack (expected 2, got 1)"))
      fs
      [Print [Lit "Analyzing image: "; Arg (Val (VStr p))]; PILOpen p].
Proof.
  intros Hopen. unfold analyze_image.
  rewrite (bind_run _ _ fs tt fs _ eq_refl).
  rewrite (bind_run _ _ _ _ _ _ (check_image_for_screenshot_undecoded lib p fs e Hopen)).
  unfold error_dict. cbn [unpack2]. rewrite map_to_list_singleton.
  cbn [length]. rewrite unpack_error_1. reflexivity.
Qed.

Lemma detect_clone_patterns_silent p : silent (detect_clone_patterns lib p).
Proof.
  intros fs. rewrite detect_clone_patterns_run.
  destruct (cv2_imread_gray lib p (fs !! p)) as [e | [image |]]; reflexivity.
Qed.

Lemma detect_clone_patterns_read_only p : read_only (detect_clone_patterns lib p).
Proof.
  intros fs. rewrite detect_clone_patterns_run.
  destruct (cv2_imread_gray lib p (fs !! p)) as [e | [image |]]; reflexivity.
Qed.

Lemma check_image_for_forgery_read_only p : read_only (check_image_for_forgery lib p).
Proof.
  intros fs. destruct (check_image_for_forgery_run lib p fs)
    as (d & tool & s1 & s2 & _ & _ & _ & _ & _ & ->). reflexivity.
Qed.

Lemma check_image_for_forgery_silent p : silent (check_image_for_forgery lib p).
Proof.
  intros fs. destruct (check_image_for_forgery_run lib p fs)
    as (d & tool & s1 & s2 & _ & _ & _ & _ & _ & ->). reflexivity.
Qed.

Lemma emits_Image_show (P : event -> Prop) im : P (PILShow im) -> emits P (Image_show lib im).
Proof. intros H fs. repeat constructor. exact H. Qed.

Lemma emits_pyplot_show (P : event -> Prop) title a :
  P (PltShow title a) -> emits P (pyplot_show lib title a).
Proof. intros H fs. repeat constructor. exact H. Qed.

(** The pixel stage prints failures and shows results, but never a total. *)
Lemma pixel_stage_no_totals p :
  emits (fun e => total_of e = None) (pixel_stage lib p).
Proof.
  assert (Hcall : forall e, is_print e = false -> total_of e = None)
    by (intros []; (discriminate || reflexivity)).
  unfold pixel_stage, print.
  apply emits_bind;
    [apply silent_emits; [apply detect_clone_patterns_silent | exact Hcall] |].
  intros x. apply emits_bind.
  { destruct x; first [apply emits_emit; reflexivity
                      | apply emits_pyplot_show; reflexivity]. }
  intros _. apply emits_bind;
    [apply silent_emits; [apply perform_ela_analysis_silent | exact Hcall] |].
  intros y. apply emits_bind; [| intros _; apply emits_ret].
  destruct y; first [apply emits_emit; reflexivity | apply emits_Image_show; reflexivity].
Qed.

(** A run whose two checks return sub-scores: the scores are printed, then
    the total, and then the pixel stage runs; the run ends as that stage
    ends. *)
Lemma analyze_image_scored p fs label s f :
  value (check_image_for_screenshot lib p fs) = inr (verdict label s) ->
  value (check_image_for_forgery lib p fs) = inr (Val (VInt f)) ->
  analyze_image lib p fs =
  Run (value (pixel_stage lib p fs))
      (files_after (pixel_stage lib p fs))
      (Print [Lit "Analyzing image: "; Arg (Val (VStr p))]
       :: trace (check_image_for_screenshot lib p fs)
       ++ Print [Lit "Screenshot check result: "; Arg (Val (VStr label));
                 Lit ", Score: "; Arg (Val (VInt s)); Lit "%"]
       :: trace (check_image_for_forgery lib p fs)
       ++ Print [Lit "Forgery check result: Forgery Score: ";
                 Arg (Val (VInt f)); Lit "%"]
       :: Print [Lit "Total Forgery Probability: ";
                 Arg (Val (VInt (Z.min 100 (f + s)))); Lit "%"]
       :: trace (pixel_stage lib p fs)).
Proof.
  intros Hs Hf.
  assert (Hshot : check_image_for_screenshot lib p fs =
                  Run (inr (verdict label s)) fs
                      (trace (check_image_for_screenshot lib p fs))).
  { rewrite (run_eta (check_image_for_screenshot lib p fs)) at 1.
    rewrite Hs, check_image_for_screenshot_read_only. reflexivity. }
  assert (Hforg : check_image_for_forgery lib p fs =
                  Run (inr (Val (VInt f))) fs
                      (trace (check_image_for_forgery lib p fs))).
  { rewrite (run_eta (check_image_for_forgery lib p fs)) at 1.
    rewrite Hf, check_image_for_forgery_read_only. reflexivity. }
  unfold analyze_image.
  rewrite (bind_run _ _ fs tt fs _ eq_refl).
  rewrite (bind_run _ _ _ _ _ _ Hshot).
  unfold verdict. cbn [unpack2]. run_step.
  rewrite (bind_run _ _ _ _ _ _ Hforg). run_step.
  cbn [fst snd py_add]. run_step. rewrite py_min_100. run_step.
  rewrite <- ?app_assoc. reflexivity.
Qed.

(** C1: with the sub-scores [s] of the screenshot classifier and [f] of the
    forgery scorer, both non-negative, the run reports exactly one total,
    min(100, s + f), whatever happens in the pixel transforms and displays
    that follow; that total lies in [0, 100] and does not decrease when a
    sub-score grows. *)
Theorem total_is_capped_sum p fs label s f :
  value (check_image_for_screenshot lib p fs) = inr (verdict label s) ->
  value (check_image_for_forgery lib p fs) = inr (Val (VInt f)) ->
  0 <= s -> 0 <= f ->
  reported_totals (trace (analyze_image lib p fs)) = [VInt (Z.min 100 (s + f))]
  /\ 0 <= Z.min 100 (s + f) <= 100
  /\ (forall s' f', s <= s' -> f <= f' ->
                    Z.min 100 (s + f) <= Z.min 100 (s' + f')).
Proof.
  intros Hs Hf Hs0 Hf0.
  split; [| split; [lia | intros; lia]].
  rewrite (analyze_image_scored p fs label s f Hs Hf). cbn [trace].
  replace (f + s) with (s + f) by lia.
  repeat (rewrite ?reported_totals_cons, ?reported_totals_app).
  rewrite (reported_totals_silent _ (check_image_for_screenshot_silent p fs)).
  rewrite (reported_totals_silent _ (check_image_for_forgery_silent p fs)).
  rewrite (reported_totals_none _ (pixel_stage_no_totals p fs)).
  reflexivity.
Qed.

End Orchestrator.

Lemma decode_failure_aborts_run_witness :
  analyze_image corrupt_lib "broken.jpg" ∅ =
  Run (inl (Exc "ValueError" "not enough values to unpack (expected 2, got 1)"))
      ∅
      [Print [Lit "Analyzing image: "; Arg (Val (VStr "broken.jpg"))];
       PILOpen "broken.jpg"].
Proof.
  apply (decode_failure_aborts_run corrupt_lib "broken.jpg" ∅
           (Exc "UnidentifiedImageError" "cannot identify image file")).
  reflexivity.
Defined.

Lemma total_is_capped_sum_witness :
  reported_totals (trace (analyze_image edited_lib "shot.png" ∅)) = [VInt 100].
Proof.
  destruct (total_is_capped_sum edited_lib "shot.png" ∅
              "Possible Screenshot (Common Screen Resolution)" 35 80)
    as (Htotal & _).
  - vm_compute. reflexivity.
  - vm_compute. reflexivity.
  - lia.
  - lia.
  - exact Htotal.
Defined.

(** * Further properties of the code *)

(** ** The resolution rule *)

Lemma scan_resolutions_inv rs width height :
  match scan_resolutions rs width height with
  | Some r =>
      r = verdict "Possible Screenshot (Common Screen Resolution)" 35
      /\ exists res, In res rs /\ resolution_matches width height res = true
  | None => forall res, In res rs -> resolution_matches width height res = false
  end.
Proof.
  induction rs as [| r0 rs IH]; simpl.
  - intros res [].
  - destruct (resolution_matches width height r0) eqn:Hm.
    + split; [reflexivity |]. exists r0. auto.
    + destruct (scan_resolutions rs width height) as [r |].
      * destruct IH as [-> (res & Hin & Hres)]. split; [reflexivity |].
        exists res. auto.
      * intros res [<- | Hin]; auto.
Qed.

Lemma scan_resolutions_tolerance width height :
  match scan_resolutions common_resolutions width height with
  | Some r =>
      r = verdict "Possible Screenshot (Common Screen Resolution)" 35
      /\ exists res, In res common_resolutions /\ within_tolerance width height res
  | None =>
      forall res, In res common_resolutions -> ~ within_tolerance width height res
  end.
Proof.
  pose proof (scan_resolutions_inv common_resolutions width height) as H.
  destruct (scan_resolutions common_resolutions width height) as [r |].
  - destruct H as [-> (res & Hin & Hm)]. split; [reflexivity |].
    exists res. split; [exact Hin |]. apply resolution_matches_spec; assumption.
  - intros res Hin Hw. apply resolution_matches_spec in Hw; [| exact Hin].
    rewrite (H res Hin) in Hw. discriminate.
Qed.

(** X1: the loop over the reference resolutions returns the verdict
    "Possible Screenshot (Common Screen Resolution)" with score 35 exactly
    when width and height are both within ten percent of the same
    reference pair, and falls through otherwise: the float products
    [res * 0.9] and [res * 1.1] never move a bound across an integer. *)
Theorem resolution_rule_decides_tolerance width height :
  (scan_resolutions common_resolutions width height
   = Some (verdict "Possible Screenshot (Common Screen Resolution)" 35)
   <-> exists res, In res common_resolutions /\ within_tolerance width height res)
  /\ (scan_resolutions common_resolutions width height = None
      <-> forall res, In res common_resolutions -> ~ within_tolerance width height res).
Proof.
  pose proof (scan_resolutions_tolerance width height) as H.
  destruct (scan_resolutions common_resolutions width height) as [r |].
  - destruct H as [-> Hex]. split; split; try discriminate; auto.
    intros Hno. destruct Hex as (res & Hin & Hw). destruct (Hno res Hin Hw).
  - split; split; try discriminate; auto.
    intros (res & Hin & Hw). destruct (H res Hin Hw).
Qed.

Lemma within_tolerance_landscape width height res :
  In res common_resolutions -> within_tolerance width height res ->
  1152 <= width <= 4224 /\ 648 <= height <= 2376 /\ height < width.
Proof.
  intros Hin. unfold common_resolutions in Hin. simpl in Hin.
  unfold within_tolerance.
  repeat destruct Hin as [<- | Hin]; try contradiction; simpl; lia.
Qed.

(** X2: the resolution rule only ever fires on a landscape image between
    1152 by 648 and 4224 by 2376: a portrait or square image, such as a
    screenshot of a phone or of a rotated screen, never gets that
    verdict. *)
Theorem resolution_rule_needs_landscape width height r :
  scan_resolutions common_resolutions width height = Some r ->
  1152 <= width <= 4224 /\ 648 <= height <= 2376 /\ height < width.
Proof.
  intros Hscan.
  pose proof (scan_resolutions_inv common_resolutions width height) as H.
  rewrite Hscan in H. destruct H as [_ (res & Hin & Hm)].
  apply (within_tolerance_landscape width height res Hin).
  apply resolution_matches_spec; assumption.
Qed.

Lemma resolution_rule_needs_landscape_witness :
  1152 <= 1366 <= 4224 /\ 648 <= 768 <= 2376 /\ 768 < 1366.
Proof.
  apply (resolution_rule_needs_landscape 1366 768
           (verdict "Possible Screenshot (Common Screen Resolution)" 35)).
  vm_compute. reflexivity.
Defined.

Section ScreenshotDecision.

Variable lib : Libs.

(** X3: the decision table of the classifier on an image that decodes.
    Within ten percent of a reference resolution: score 35, and the EXIF
    data is not read.  Otherwise the EXIF data is read once, and the answer
    is "Original Image" with score 0 when the tags have an entry named
    "Image", and "Missing or Minimal EXIF Data" with score 50 when the
    extraction failed or the tags have no such entry.  The file system is
    never changed. *)
Theorem screenshot_decision_table p fs im :
  pil_open lib p (fs !! p) = inr im ->
  ((exists res, In res common_resolutions
                /\ within_tolerance (fst (size im)) (snd (size im)) res) ->
   check_image_for_screenshot lib p fs =
   Run (inr (verdict "Possible Screenshot (Common Screen Resolution)" 35))
       fs [PILOpen p])
  /\ ((forall res, In res common_resolutions ->
                   ~ within_tolerance (fst (size im)) (snd (size im)) res) ->
      (forall tags, exifread_process_file lib p (fs !! p) = inr tags ->
                    is_Some (tags !! "Image") ->
                    check_image_for_screenshot lib p fs =
                    Run (inr (verdict "Original Image (Not a Screenshot)" 0))
                        fs [PILOpen p; ExifRead p])
      /\ ((forall tags, exifread_process_file lib p (fs !! p) = inr tags ->
                        tags !! "Image" = None) ->
          check_image_for_screenshot lib p fs =
          Run (inr (verdict "Possible Screenshot (Missing or Minimal EXIF Data)" 50))
              fs [PILOpen p; ExifRead p])).
Proof.
  intros Hopen.
  rewrite (check_image_for_screenshot_decoded lib p fs im Hopen).
  pose proof (scan_resolutions_tolerance (fst (size im)) (snd (size im))) as H.
  split.
  - intros Hex.
    destruct (scan_resolutions common_resolutions _ _) as [r |].
    + destruct H as [-> _]. reflexivity.
    + destruct Hex as (res & Hin & Hw). destruct (H res Hin Hw).
  - intros Hno. rewrite (no_reference_within_tolerance _ _ Hno). split.
    + intros tags -> [v ->]. reflexivity.
    + intros Hnone.
      destruct (exifread_process_file lib p (fs !! p)) as [e | tags];
        [reflexivity |].
      rewrite (Hnone tags eq_refl). reflexivity.
Qed.

End ScreenshotDecision.

Lemma screenshot_decision_table_witness :
  check_image_for_screenshot camera_lib_1080p "screen.png" ∅ =
  Run (inr (verdict "Possible Screenshot (Common Screen Resolution)" 35))
      ∅ [PILOpen "screen.png"].
Proof.
  apply (screenshot_decision_table camera_lib_1080p "screen.png" ∅ (photo 1920 1080 ∅)).
  - reflexivity.
  - exists (1920, 1080). split; [left; reflexivity |].
    unfold within_tolerance. simpl. lia.
Defined.

(** ** The forgery scorer, further *)

Section ForgeryFurther.

Variable lib : Libs.

Lemma forgery_score_values p fs :
  exists f, value (check_image_for_forgery lib p fs) = inr (Val (VInt f))
            /\ (f = 0 \/ f = 40 \/ f = 80).
Proof.
  destruct (check_image_for_forgery_run lib p fs)
    as (d & tool & s1 & s2 & _ & _ & Hkind & Hs1 & Hs2 & Hrun).
  exists s2. split; [rewrite Hrun; reflexivity |].
  destruct (software_check_spec d 0 fs) as (s1' & Hs1' & Hsoft).
  destruct (signature_check_spec tool s1 fs Hkind) as (s2' & Hs2' & Hsig).
  assert (s1' = s1) by congruence. assert (s2' = s2) by congruence. subst.
  destruct Hsoft as [[_ ->] | [_ ->]]; destruct Hsig as [[_ ->] | [_ ->]]; auto.
Qed.

(** X4: the scorer never raises and never writes: it calls [Image.open],
    the EXIF reader and ExifTool once each, in this order, and returns 0,
    40 or 80. *)
Theorem forgery_scorer_calls_and_values p fs :
  exists score,
    check_image_for_forgery lib p fs =
    Run (inr (Val (VInt score))) fs [PILOpen p; ExifRead p; ExifTool p]
    /\ (score = 0 \/ score = 40 \/ score = 80).
Proof.
  destruct (check_image_for_forgery_run lib p fs)
    as (d & tool & s1 & s2 & _ & _ & _ & _ & _ & Hrun).
  destruct (forgery_score_values p fs) as (f & Hf & Hval).
  exists s2. split; [exact Hrun |].
  rewrite Hrun in Hf. inversion Hf; subst f. exact Hval.
Qed.



(** X6: the scorer runs the EXIF extraction but never looks at what it
    returns: with any other EXIF reader in place the whole run of the
    scorer, score included, is the same. *)
Theorem forgery_score_ignores_exif p fs exif :
  check_image_for_forgery (with_exif lib exif) p fs
  = check_image_for_forgery lib p fs.
Proof.
  destruct (check_image_for_forgery_run lib p fs)
    as (d & tool & s1 & s2 & Hbasic & Htool & _ & Hs1 & Hs2 & Hrun).
  destruct (check_image_for_forgery_run (with_exif lib exif) p fs)
    as (d' & tool' & s1' & s2' & Hbasic' & Htool' & _ & Hs1' & Hs2' & Hrun').
  change (extract_basic_metadata (with_exif lib exif) p fs)
    with (extract_basic_metadata lib p fs) in Hbasic'.
  change (extract_exiftool_metadata (with_exif lib exif) p fs)
    with (extract_exiftool_metadata lib p fs) in Htool'.
  rewrite Hbasic in Hbasic'. inversion Hbasic'; subst d'.
  rewrite Htool in Htool'. inversion Htool'; subst tool'.
  rewrite Hs1 in Hs1'. inversion Hs1'; subst s1'.
  rewrite Hs2 in Hs2'. inversion Hs2'; subst s2'.
  rewrite Hrun, Hrun'. reflexivity.
Qed.

End ForgeryFurther.


(** ** The orchestrator, further *)

Section OrchestratorFurther.

Variable lib : Libs.

Lemma check_image_for_screenshot_verdict p fs im :
  pil_open lib p (fs !! p) = inr im ->
  exists label s,
    value (check_image_for_screenshot lib p fs) = inr (verdict label s)
    /\ (s = 35 \/ s = 50 \/ s = 0).
Proof.
  intros Hopen. rewrite (check_image_for_screenshot_decoded lib p fs im Hopen).
  pose proof (scan_resolutions_tolerance (fst (size im)) (snd (size im))) as H.
  destruct (scan_resolutions common_resolutions _ _) as [r |].
  - destruct H as [-> _]. eexists _, _. split; [reflexivity | auto].
  - destruct (exifread_process_file lib p (fs !! p)) as [e | tags].
    + eexists _, _. split; [reflexivity | auto].
    + destruct (tags !! "Image"); eexists _, _; (split; [reflexivity | auto]).
Qed.

(** A run on an image that decodes gets as far as the total, and ends as
    the pixel stage ends. *)
Lemma analyze_image_decoded p fs im :
  pil_open lib p (fs !! p) = inr im ->
  exists s f t,
    (s = 35 \/ s = 50 \/ s = 0)
    /\ (f = 0 \/ f = 40 \/ f = 80)
    /\ reported_totals t = [VInt (Z.min 100 (f + s))]
    /\ Forall (fun e => forall path q, e <> PILSave path q) t
    /\ analyze_image lib p fs =
       Run (value (pixel_stage lib p fs)) (files_after (pixel_stage lib p fs))
           (t ++ trace (pixel_stage lib p fs)).
Proof.
  intros Hopen.
  destruct (check_image_for_screenshot_verdict p fs im Hopen) as (label & s & Hs & Hsval).
  destruct (forgery_score_values lib p fs) as (f & Hf & Hfval).
  exists s, f,
    (Print [Lit "Analyzing image: "; Arg (Val (VStr p))]
     :: trace (check_image_for_screenshot lib p fs)
     ++ Print [Lit "Screenshot check result: "; Arg (Val (VStr label));
               Lit ", Score: "; Arg (Val (VInt s)); Lit "%"]
     :: trace (check_image_for_forgery lib p fs)
     ++ [Print [Lit "Forgery check result: Forgery Score: ";
                Arg (Val (VInt f)); Lit "%"];
         Print [Lit "Total Forgery Probability: ";
                Arg (Val (VInt (Z.min 100 (f + s)))); Lit "%"]]).
  split; [exact Hsval |]. split; [exact Hfval |].
  split; [| split;
    [| rewrite (analyze_image_scored lib p fs label s f Hs Hf);
       cbn [app]; rewrite <- !app_assoc; cbn [app]; rewrite <- !app_assoc;
       reflexivity]].
  - repeat (rewrite ?reported_totals_cons, ?reported_totals_app).
    rewrite (reported_totals_silent _ (check_image_for_screenshot_silent lib p fs)).
    rewrite (reported_totals_silent _ (check_image_for_forgery_silent lib p fs)).
    reflexivity.
  - assert (Hcall : forall t0, (forall e, In e t0 -> exists path, e = PILOpen path
                          \/ e = ExifRead path \/ e = ExifTool path) ->
                     Forall (fun e => forall path q, e <> PILSave path q) t0).
    { intros t0 H. apply List.Forall_forall. intros e He path q ->.
      destruct (H _ He) as [path' [H' | [H' | H']]]; discriminate. }
    constructor; [discriminate |]. apply Forall_app. split.
    + apply Hcall. rewrite (check_image_for_screenshot_decoded lib p fs im Hopen).
      destruct (scan_resolutions _ _ _); cbn [trace]; intros e He;
        repeat destruct He as [<- | He]; try destruct He; eauto.
    + constructor; [discriminate |]. apply Forall_app. split.
      * apply Hcall.
        destruct (check_image_for_forgery_run lib p fs)
          as (d & tool & s1 & s2 & _ & _ & _ & _ & _ & ->).
        cbn [trace]. intros e He.
        repeat destruct He as [<- | He]; try destruct He; eauto.
      * repeat (constructor; [discriminate |]). constructor.
Qed.

Lemma analyze_image_undecoded p fs e :
  pil_open lib p (fs !! p) = inl e ->
  exists exc t, analyze_image lib p fs = Run (inl exc) fs t
                /\ reported_totals t = []
                /\ Forall (fun e => forall path q, e <> PILSave path q) t.
Proof.
  intros Hopen. unfold analyze_image.
  rewrite (bind_run _ _ fs tt fs _ eq_refl).
  rewrite (bind_run _ _ _ _ _ _ (check_image_for_screenshot_undecoded lib p fs e Hopen)).
  unfold error_dict. cbn [unpack2]. rewrite map_to_list_singleton.
  run_step. eexists _, _. split; [reflexivity |]. split; [reflexivity |].
  repeat (constructor; [discriminate |]). constructor.
Qed.

(** The pixel stage completes when OpenCV's reader and the two display
    calls do not raise: no failure inside the clone detector or the
    analyzer stops it. *)
Lemma pixel_stage_completes p fs :
  (exists g, cv2_imread_gray lib p (fs !! p) = inr g) ->
  (forall title a fs', fst (plt_show lib title a fs') = inr tt) ->
  (forall im fs', fst (pil_show lib im fs') = inr tt) ->
  value (pixel_stage lib p fs) = inr (Val VNone).
Proof.
  intros [g Hread] Hplt Hshow. unfold pixel_stage.
  pose proof (detect_clone_patterns_run lib p fs) as Hclone. rewrite Hread in Hclone.
  assert (Hrest : forall fs0,
    value ((ela_result <- perform_ela_analysis lib p default_quality ;;
            match ela_result with
            | Img im => Image_show lib im
            | _ => print [Arg ela_result]
            end ;;; ret (Val VNone)) fs0) = inr (Val VNone)).
  { intros fs0.
    destruct (perform_ela_analysis_total lib p default_quality fs0) as [y Hy].
    unfold bind at 1. rewrite Hy. cbn [value].
    destruct y; unfold Image_show; run_all; rewrite ?Hshow; reflexivity. }
  destruct g as [image |]; rewrite (bind_run _ _ _ _ _ _ Hclone); cbn [value];
    unfold error_dict, pyplot_show.
  - unfold bind at 1. cbn [value]. rewrite Hplt. cbn [value]. apply Hrest.
  - unfold bind at 1. cbn [print emit value files_after]. apply Hrest.
Qed.

Lemma pixel_stage_reader_raises p fs e :
  cv2_imread_gray lib p (fs !! p) = inl e ->
  pixel_stage lib p fs = Run (inl e) fs [CvImread p].
Proof.
  intros Hread. unfold pixel_stage.
  pose proof (detect_clone_patterns_run lib p fs) as Hclone. rewrite Hread in Hclone.
  rewrite (bind_raise _ _ _ _ _ _ Hclone). reflexivity.
Qed.

Lemma bind_value_inv {A B} (m : M A) (k : A -> M B) fs v :
  value (bind m k fs) = inr v -> exists a fs', value (k a fs') = inr v.
Proof.
  unfold bind. destruct (value (m fs)) as [e | a]; cbn [value]; [discriminate |].
  intros H. exists a, (files_after (m fs)). exact H.
Qed.

(** X7: a run that returns has returned [None] on an image that decodes.
    On an image that decodes, the run returns whenever OpenCV's reader and
    the two display calls do not raise, whatever the EXIF reader, ExifTool,
    the JPEG encoder and the image difference do; and when OpenCV's reader
    raises, the run ends with that exception, after the total was
    printed. *)
Theorem run_completion p fs :
  (forall v, value (analyze_image lib p fs) = inr v ->
             v = Val VNone /\ exists im, pil_open lib p (fs !! p) = inr im)
  /\ (forall im,
         pil_open lib p (fs !! p) = inr im ->
         (exists g, cv2_imread_gray lib p (fs !! p) = inr g) ->
         (forall title a fs', fst (plt_show lib title a fs') = inr tt) ->
         (forall im' fs', fst (pil_show lib im' fs') = inr tt) ->
         value (analyze_image lib p fs) = inr (Val VNone))
  /\ (forall im e,
         pil_open lib p (fs !! p) = inr im ->
         cv2_imread_gray lib p (fs !! p) = inl e ->
         value (analyze_image lib p fs) = inl e
         /\ exists total, reported_totals (trace (analyze_image lib p fs))
                          = [VInt total]).
Proof.
  split; [| split].
  - intros v Hv. destruct (pil_open lib p (fs !! p)) as [e | im] eqn:Hopen.
    + destruct (analyze_image_undecoded p fs e Hopen) as (exc & t & Hrun & _).
      rewrite Hrun in Hv. discriminate.
    + split; [| exists im; reflexivity].
      destruct (analyze_image_decoded p fs im Hopen)
        as (s & f & t & _ & _ & _ & _ & Hrun).
      rewrite Hrun in Hv. cbn [value] in Hv. unfold pixel_stage in Hv.
      repeat (apply bind_value_inv in Hv; destruct Hv as (? & ? & Hv)).
      inversion Hv. reflexivity.
  - intros im Hopen Hread Hplt Hshow.
    destruct (analyze_image_decoded p fs im Hopen)
      as (s & f & t & _ & _ & _ & _ & ->).
    cbn [value]. apply pixel_stage_completes; assumption.
  - intros im e Hopen Hread.
    destruct (analyze_image_decoded p fs im Hopen)
      as (s & f & t & _ & _ & Ht & _ & ->).
    rewrite (pixel_stage_reader_raises p fs e Hread). cbn [value trace].
    split; [reflexivity |]. eexists.
    rewrite reported_totals_app, Ht. reflexivity.
Qed.

Lemma reported_totals_scored p fs label s f :
  value (check_image_for_screenshot lib p fs) = inr (verdict label s) ->
  value (check_image_for_forgery lib p fs) = inr (Val (VInt f)) ->
  reported_totals (trace (analyze_image lib p fs)) = [VInt (Z.min 100 (f + s))].
Proof.
  intros Hs Hf. rewrite (analyze_image_scored lib p fs label s f Hs Hf). cbn [trace].
  repeat (rewrite ?reported_totals_cons, ?reported_totals_app).
  rewrite (reported_totals_silent _ (check_image_for_screenshot_silent lib p fs)).
  rewrite (reported_totals_silent _ (check_image_for_forgery_silent lib p fs)).
  rewrite (reported_totals_none _ (pixel_stage_no_totals lib p fs)).
  reflexivity.
Qed.

(** X8: a run on an image that decodes reports exactly one total, whether
    or not it then completes, and it is one of 0, 35, 40, 50, 75, 80, 90
    and 100: the cap at 100 only ever cuts the sums 115 and 130 of a
    forgery score of 80 with a screenshot score of 35 or 50. *)
Theorem reported_total_values p fs im :
  pil_open lib p (fs !! p) = inr im ->
  exists total,
    reported_totals (trace (analyze_image lib p fs)) = [VInt total]
    /\ In total [0; 35; 40; 50; 75; 80; 90; 100].
Proof.
  intros Hopen.
  destruct (check_image_for_screenshot_verdict p fs im Hopen) as (label & s & Hs & Hsval).
  destruct (forgery_score_values lib p fs) as (f & Hf & Hfval).
  exists (Z.min 100 (f + s)).
  split; [exact (reported_totals_scored p fs label s f Hs Hf) |].
  destruct Hsval as [-> | [-> | ->]]; destruct Hfval as [-> | [-> | ->]];
    vm_compute; tauto.
Qed.

Lemma perform_ela_analysis_keeps p q path :
  path <> "ela_image.jpg" -> keeps path (perform_ela_analysis lib p q).
Proof.
  intros Hne fs. destruct (pil_open lib p (fs !! p)) as [e | im] eqn:Hopen.
  - rewrite (perform_ela_analysis_undecoded lib p q fs e Hopen). reflexivity.
  - destruct (perform_ela_analysis_decoded lib p q fs im Hopen) as (x & t & -> & _).
    cbn [files_after].
    destruct (pil_save_jpeg lib im q) as [content | e residue].
    + apply lookup_insert_ne. unfold ela_path. congruence.
    + apply lookup_partial_alter_ne. unfold ela_path. congruence.
Qed.

Lemma pixel_stage_keeps p path :
  path <> "ela_image.jpg" ->
  (forall title a fs', snd (plt_show lib title a fs') !! path = fs' !! path) ->
  (forall im fs', snd (pil_show lib im fs') !! path = fs' !! path) ->
  keeps path (pixel_stage lib p).
Proof.
  intros Hne Hplt Hshow. unfold pixel_stage, print.
  apply keeps_bind;
    [apply read_only_keeps, detect_clone_patterns_read_only |].
  intros x. apply keeps_bind.
  { destruct x; first [apply keeps_emit | intros fs'; apply Hplt]. }
  intros _. apply keeps_bind; [apply perform_ela_analysis_keeps; exact Hne |].
  intros y. apply keeps_bind; [| intros _; apply keeps_ret].
  destruct y; first [apply keeps_emit | intros fs'; apply Hshow].
Qed.

(** X9: apart from what the two display calls themselves write (the
    temporary file of [Image.show]), a run changes nothing in the file
    system but the entry "ela_image.jpg": a path other than that one, and
    which the display calls leave alone, holds after the run what it held
    before, whether the run completes or raises. *)
Theorem run_writes_only_artifact_and_show p fs path :
  path <> "ela_image.jpg" ->
  (forall title a fs', snd (plt_show lib title a fs') !! path = fs' !! path) ->
  (forall im fs', snd (pil_show lib im fs') !! path = fs' !! path) ->
  files_after (analyze_image lib p fs) !! path = fs !! path.
Proof.
  intros Hne Hplt Hshow. destruct (pil_open lib p (fs !! p)) as [e | im] eqn:Hopen.
  - destruct (analyze_image_undecoded p fs e Hopen) as (exc & t & -> & _).
    reflexivity.
  - destruct (analyze_image_decoded p fs im Hopen)
      as (s & f & t & _ & _ & _ & _ & ->).
    cbn [files_after]. apply pixel_stage_keeps; assumption.
Qed.

Lemma perform_ela_analysis_saves p q :
  emits (fun e => forall path' q', e = PILSave path' q' ->
                                   path' = "ela_image.jpg" /\ q' = q)
        (perform_ela_analysis lib p q).
Proof.
  intros fs. destruct (pil_open lib p (fs !! p)) as [e | im] eqn:Hopen.
  - rewrite (perform_ela_analysis_undecoded lib p q fs e Hopen). cbn [trace].
    constructor; [discriminate | constructor].
  - destruct (perform_ela_analysis_decoded lib p q fs im Hopen)
      as (x & t & -> & _ & Hnone).
    cbn [trace]. constructor; [discriminate |].
    constructor; [intros path' q' H; inversion H; auto |].
    apply List.Forall_forall. intros e He path' q' ->. destruct (Hnone _ _ He).
Qed.

Lemma pixel_stage_saves p :
  emits (fun e => forall path' q', e = PILSave path' q' ->
                                   path' = "ela_image.jpg" /\ q' = 90)
        (pixel_stage lib p).
Proof.
  unfold pixel_stage, print.
  apply emits_bind.
  { intros fs. rewrite detect_clone_patterns_run.
    destruct (cv2_imread_gray lib p (fs !! p)) as [e | [image |]]; cbn [trace];
      repeat (constructor; [discriminate |]); constructor. }
  intros x. apply emits_bind.
  { destruct x; first [apply emits_emit; discriminate
                      | apply emits_pyplot_show; discriminate]. }
  intros _. apply emits_bind; [apply perform_ela_analysis_saves |].
  intros y. apply emits_bind; [| intros _; apply emits_ret].
  destruct y; first [apply emits_emit; discriminate
                    | apply emits_Image_show; discriminate].
Qed.

(** X13: the program's own call to [Image.save] happens at most in one
    place of a run, [original.save("ela_image.jpg", 'JPEG', quality=90)]:
    the orchestrator calls the analyzer with its default quality and has
    no way to pass another quality or another path on.  (What [Image.show]
    writes for its viewer is the library's doing, not such a call.) *)
Theorem run_saves_artifact_at_quality_90 p fs path q :
  In (PILSave path q) (trace (analyze_image lib p fs)) ->
  path = "ela_image.jpg" /\ q = 90.
Proof.
  intros Hin. destruct (pil_open lib p (fs !! p)) as [e | im] eqn:Hopen.
  - destruct (analyze_image_undecoded p fs e Hopen) as (exc & t & Hrun & _ & Ht).
    rewrite Hrun in Hin. cbn [trace] in Hin.
    destruct (proj1 (List.Forall_forall _ _) Ht _ Hin path q eq_refl).
  - destruct (analyze_image_decoded p fs im Hopen)
      as (s & f & t & _ & _ & _ & Ht & Hrun).
    rewrite Hrun in Hin. cbn [trace] in Hin. apply in_app_iff in Hin.
    destruct Hin as [Hin | Hin].
    + destruct (proj1 (List.Forall_forall _ _) Ht _ Hin path q eq_refl).
    + exact (proj1 (List.Forall_forall _ _) (pixel_stage_saves p fs) _ Hin path q eq_refl).
Qed.

(** X14: [open_image] and the three metadata extractions never raise,
    never print and never write, whatever the files and the libraries do:
    each turns every failure into a value it returns.  The clone detector
    never prints or writes either, but has no handler: it raises exactly
    when [cv2.imread] does, with the same exception. *)
Theorem helpers_raise_print_write p :
  (total (open_image lib p) /\ silent (open_image lib p)
   /\ read_only (open_image lib p))
  /\ (total (extract_basic_metadata lib p) /\ silent (extract_basic_metadata lib p)
      /\ read_only (extract_basic_metadata lib p))
  /\ (total (extract_exif_metadata lib p) /\ silent (extract_exif_metadata lib p)
      /\ read_only (extract_exif_metadata lib p))
  /\ (total (extract_exiftool_metadata lib p)
      /\ silent (extract_exiftool_metadata lib p)
      /\ read_only (extract_exiftool_metadata lib p))
  /\ (silent (detect_clone_patterns lib p)
      /\ read_only (detect_clone_patterns lib p)
      /\ forall fs e, value (detect_clone_patterns lib p fs) = inl e
                      <-> cv2_imread_gray lib p (fs !! p) = inl e).
Proof.
  assert (Hopen : total (open_image lib p)
                  /\ silent (open_image lib p) /\ read_only (open_image lib p)).
  { unfold open_image, Image_open. repeat split; shape. }
  split; [exact Hopen |]. split; [| split; [| split]].
  - repeat split.
    + intros fs. rewrite extract_basic_metadata_run. eexists; reflexivity.
    + unfold extract_basic_metadata, as_image. shape; apply Hopen.
    + unfold extract_basic_metadata, as_image. shape; apply Hopen.
  - unfold extract_exif_metadata. repeat split; shape.
  - unfold extract_exiftool_metadata. repeat split; shape.
  - split; [apply detect_clone_patterns_silent |].
    split; [apply detect_clone_patterns_read_only |].
    intros fs e. rewrite detect_clone_patterns_run.
    destruct (cv2_imread_gray lib p (fs !! p)) as [e' | [image |]]; cbn [value];
      split; intros H; try discriminate; inversion H; reflexivity.
Qed.

End OrchestratorFurther.

(** X10: the pixel transforms never affect the scores: with any other
    grayscale reader, JPEG encoder and image difference in place, the
    screenshot verdict, the forgery score and the totals the run reports
    are the same. *)
Theorem transforms_never_affect_scores lib p fs gray save difference :
  value (check_image_for_screenshot (with_transforms lib gray save difference) p fs)
  = value (check_image_for_screenshot lib p fs)
  /\ value (check_image_for_forgery (with_transforms lib gray save difference) p fs)
     = value (check_image_for_forgery lib p fs)
  /\ reported_totals (trace (analyze_image (with_transforms lib gray save difference) p fs))
     = reported_totals (trace (analyze_image lib p fs)).
Proof.
  assert (Hshot :
    value (check_image_for_screenshot (with_transforms lib gray save difference) p fs)
    = value (check_image_for_screenshot lib p fs)) by reflexivity.
  assert (Hforg :
    value (check_image_for_forgery (with_transforms lib gray save difference) p fs)
    = value (check_image_for_forgery lib p fs)) by reflexivity.
  split; [exact Hshot |]. split; [exact Hforg |].
  assert (Hopen' : pil_open (with_transforms lib gray save difference) p (fs !! p)
                   = pil_open lib p (fs !! p)) by reflexivity.
  revert Hshot Hforg Hopen'. generalize (with_transforms lib gray save difference).
  intros lib' Hshot Hforg Hopen'.
  destruct (pil_open lib p (fs !! p)) as [e | im] eqn:Hopen.
  - destruct (analyze_image_undecoded lib p fs e Hopen) as (exc & t & Hrun & Ht & _).
    destruct (analyze_image_undecoded lib' p fs e Hopen') as (exc' & t' & Hrun' & Ht' & _).
    rewrite Hrun, Hrun'. cbn [trace]. rewrite Ht, Ht'. reflexivity.
  - destruct (check_image_for_screenshot_verdict lib p fs im Hopen)
      as (label & s & Hs & _).
    destruct (forgery_score_values lib p fs) as (f & Hf & _).
    rewrite (reported_totals_scored lib p fs label s f Hs Hf).
    rewrite Hs in Hshot. rewrite Hf in Hforg.
    rewrite (reported_totals_scored lib' p fs label s f Hshot Hforg).
    reflexivity.
Qed.

Lemma reported_total_values_witness :
  exists total,
    reported_totals (trace (analyze_image edited_lib "shot.png" ∅)) = [VInt total]
    /\ In total [0; 35; 40; 50; 75; 80; 90; 100].
Proof.
  apply (reported_total_values edited_lib "shot.png" ∅
           (photo 1920 1080 {["Software" := VStr "Adobe Photoshop 2023"]})).
  reflexivity.
Defined.

Lemma run_writes_only_artifact_and_show_witness :
  files_after (analyze_image ela_lib "a.png" ela_files) !! "b.png"
  = ela_files !! "b.png".
Proof.
  apply (run_writes_only_artifact_and_show ela_lib "a.png" ela_files "b.png").
  - discriminate.
  - reflexivity.
  - intros im fs'. cbn [ela_lib fixed_lib pil_show snd].
    apply lookup_insert_ne. discriminate.
Defined.

Lemma run_saves_artifact_at_quality_90_witness :
  In (PILSave "ela_image.jpg" 90) (trace (analyze_image ela_lib "a.png" ela_files))
  /\ ("ela_image.jpg" = "ela_image.jpg" /\ 90 = 90).
Proof.
  assert (H : In (PILSave "ela_image.jpg" 90)
                 (trace (analyze_image ela_lib "a.png" ela_files))).
  { vm_compute. do 12 right. left. reflexivity. }
  split; [exact H |].
  exact (run_saves_artifact_at_quality_90 ela_lib "a.png" ela_files
           "ela_image.jpg" 90 H).
Defined.

(** ** The error-level analyzer, further *)

Section ELAFurther.

Variable lib : Libs.

(** X11: the analyzer never raises.  On an image that decodes it returns
    the difference image exactly when the save, the reopening of the
    artifact and the difference all succeed, and a failure mapping in
    every other case; the image it compares with is the decode of the
    bytes this run has just written, never of what an earlier run left
    under "ela_image.jpg". *)
Theorem ela_returns_difference_or_failure p q fs im :
  pil_open lib p (fs !! p) = inr im ->
  exists x,
    value (perform_ela_analysis lib p q fs) = inr x
    /\ ((exists content reopened diff,
            pil_save_jpeg lib im q = Saved content
            /\ pil_open lib "ela_image.jpg" (Some content) = inr reopened
            /\ pil_difference lib im reopened = inr diff
            /\ x = Img diff)
        \/ (is_failure x
            /\ forall content reopened,
                 pil_save_jpeg lib im q = Saved content ->
                 pil_open lib "ela_image.jpg" (Some content) = inr reopened ->
                 exists e, pil_difference lib im reopened = inl e)).
Proof.
  intros Hopen. unfold perform_ela_analysis.
  rewrite (bind_run _ _ _ _ _ _ (open_image_run lib p fs)), Hopen.
  cbn [is_error_dict as_image]. unfold Image_save, Image_open,
    ImageChops_difference. run_all.
  destruct (pil_save_jpeg lib im q) as [content | e residue]; run_all.
  - unfold ela_path. rewrite lookup_insert_eq.
    destruct (pil_open lib "ela_image.jpg" (Some content)) as [e | reopened]
      eqn:Hre; run_all.
    + eexists. split; [reflexivity |]. right. split; [eexists; reflexivity |].
      intros content' reopened' Hc Hr. inversion Hc; subst content'. congruence.
    + destruct (pil_difference lib im reopened) as [e | diff] eqn:Hdiff; run_all.
      * eexists. split; [reflexivity |]. right. split; [eexists; reflexivity |].
        intros content' reopened' Hc Hr. inversion Hc; subst content'.
        rewrite Hre in Hr. inversion Hr; subst reopened'. exists e. exact Hdiff.
      * eexists. split; [reflexivity |]. left. exists content, reopened, diff. auto.
  - eexists. split; [reflexivity |]. right. split; [eexists; reflexivity |].
    intros content reopened Hc. discriminate.
Qed.

(** X12: repeated runs leave one artifact, not one per run: when the save
    succeeds, running the analyzer again on the same source (any source
    but "ela_image.jpg" itself) leaves the file system as the first run
    left it. *)
Theorem ela_second_run_changes_nothing p q fs im content :
  p <> "ela_image.jpg" ->
  pil_open lib p (fs !! p) = inr im ->
  pil_save_jpeg lib im q = Saved content ->
  files_after (perform_ela_analysis lib p q fs) = <["ela_image.jpg" := content]> fs
  /\ files_after (perform_ela_analysis lib p q
                    (files_after (perform_ela_analysis lib p q fs)))
     = files_after (perform_ela_analysis lib p q fs).
Proof.
  intros Hne Hopen Hsave.
  assert (Hfirst : files_after (perform_ela_analysis lib p q fs)
                   = <["ela_image.jpg" := content]> fs).
  { destruct (perform_ela_analysis_decoded lib p q fs im Hopen) as (x & t & -> & _).
    cbn [files_after]. rewrite Hsave. reflexivity. }
  split; [exact Hfirst |]. rewrite Hfirst.
  assert (Hopen' : pil_open lib p (<["ela_image.jpg" := content]> fs !! p) = inr im).
  { rewrite lookup_insert_ne by congruence. exact Hopen. }
  destruct (perform_ela_analysis_decoded lib p q _ im Hopen') as (x & t & -> & _).
  cbn [files_after]. rewrite Hsave. unfold ela_path. apply insert_insert_eq.
Qed.

End ELAFurther.

Lemma ela_returns_difference_or_failure_witness :
  value (perform_ela_analysis ela_lib "a.png" 90 ela_files)
  = inr (Img (photo 4000 3000 ∅)).
Proof.
  destruct (ela_returns_difference_or_failure ela_lib "a.png" 90 ela_files
              (photo 4000 3000 ∅))
    as (x & Hx & _).
  - reflexivity.
  - rewrite Hx. vm_compute in Hx. inversion Hx. reflexivity.
Defined.

Lemma ela_second_run_changes_nothing_witness :
  files_after (perform_ela_analysis ela_lib "a.png" 90
                 (files_after (perform_ela_analysis ela_lib "a.png" 90 ela_files)))
  = files_after (perform_ela_analysis ela_lib "a.png" 90 ela_files).
Proof.
  apply (ela_second_run_changes_nothing ela_lib "a.png" 90 ela_files
           (photo 4000 3000 ∅) [Byte.xff; Byte.xd8]).
  - discriminate.
  - reflexivity.
  - reflexivity.
Defined.

(** A wide image that PIL decodes and OpenCV refuses: the scores and the
    total are printed, then the reader's exception ends the run. *)
Lemma oversized_image_run :
  value (analyze_image oversized_lib "wide.bmp" ∅)
  = inl (Exc "cv2.error" "OpenCV: image is too large")
  /\ reported_totals (trace (analyze_image oversized_lib "wide.bmp" ∅)) = [VInt 50].
Proof. split; vm_compute; reflexivity. Qed.
